(** * DAOSkillProofFHE: the ledger and the decryption handshake

    A shallow embedding of the contract [DAOSkillProofFHE] (the Solidity text
    that follows the dashboard in [src/frontend/web/src/App.tsx]) and the
    properties of its state machine.

    Conventions of the embedding:
    - [uint256], [uint32], [address], [bytes32] are integers ([Z]); every
      narrowing cast and every checked addition of the source is written out;
    - a Solidity [mapping] is a finite map read with the type's zero value as
      default;
    - a call either returns the new state or reverts with an error; a reverted
      call leaves the state as it was (this is the EVM's transaction
      semantics, see [step]);
    - the FHE library, the hash and the signature check are an interface
      ([Fhevm]): the contract never looks inside them. *)

From Stdlib Require Import ZArith Lia.
From Stdlib.Strings Require Import Byte.
From stdpp Require Import base option list gmap strings.

Local Open Scope Z_scope.

(** ** Solidity value types *)

Abbreviation address := Z (only parsing).
Abbreviation uint256 := Z (only parsing).
Abbreviation bytes32 := Z (only parsing).
Abbreviation euint32 := Z (only parsing).
Abbreviation bytes := (list byte) (only parsing).

(** [uint32(x)]: the explicit narrowing cast keeps the low 32 bits. *)
Definition uint32 (x : Z) : Z := x mod 2 ^ 32.

Definition UINT256_MODULUS : Z := 2 ^ 256.

(** ** Errors *)

(** The errors the contract declares, [InvalidState] (used by
    [_requireInitialized]) and the arithmetic panic of a checked addition. *)
Inductive Error : Set :=
  | NotOwner
  | NotProvider
  | Paused
  | CooldownActive
  | InvalidBatch
  | BatchClosed
  | InvalidArgument
  | ReplayDetected
  | StateMismatch
  | DecryptionFailed
  | InvalidState
  | Panic.

(** The name under which an error is surfaced to the caller. *)
Definition error_name (e : Error) : string :=
  match e with
  | NotOwner => "NotOwner"
  | NotProvider => "NotProvider"
  | Paused => "Paused"
  | CooldownActive => "CooldownActive"
  | InvalidBatch => "InvalidBatch"
  | BatchClosed => "BatchClosed"
  | InvalidArgument => "InvalidArgument"
  | ReplayDetected => "ReplayDetected"
  | StateMismatch => "StateMismatch"
  | DecryptionFailed => "DecryptionFailed"
  | InvalidState => "InvalidState"
  | Panic => "Panic"
  end.

Inductive result (A : Type) : Type :=
  | Ok (a : A)
  | Err (e : Error).
Arguments Ok {A} a.
Arguments Err {A} e.

#[global] Instance result_ret : MRet result := fun A a => Ok a.
#[global] Instance result_bind : MBind result := fun A B f r =>
  match r with
  | Ok a => f a
  | Err e => Err e
  end.

(** [if (c) revert E();] *)
Definition revert_if (c : bool) (e : Error) : result unit :=
  if c then Err e else Ok tt.

(** Checked [uint256] addition (Solidity 0.8). *)
Definition checked_add (a b : Z) : result Z :=
  if a + b <? UINT256_MODULUS then Ok (a + b) else Err Panic.

Definition error_of {A} (r : result A) : option Error :=
  match r with Ok _ => None | Err e => Some e end.

(** ** Storage *)

Record SkillContribution : Set := {
  sc_skillScore : euint32;
  sc_contributionScore : euint32;
  sc_totalScore : euint32;
  sc_exists : bool
}.

Record Batch : Set := {
  batch_id : Z;
  batch_open : bool
}.

Record DecryptionContext : Set := {
  dc_batchId : Z;
  dc_stateHash : bytes32;
  dc_processed : bool
}.

Inductive Event : Set :=
  | EvProviderAdded (provider : address)
  | EvProviderRemoved (provider : address)
  | EvPaused (account : address)
  | EvUnpaused (account : address)
  | EvCooldownSet (cooldown : uint256)
  | EvBatchOpened (batchId : Z)
  | EvBatchClosed (batchId : Z)
  | EvContributionSubmitted (provider : address) (batchId : Z) (contributionId : bytes32)
  | EvDecryptionRequested (requestId : uint256) (batchId : Z)
  | EvDecryptionCompleted (requestId : uint256) (batchId : Z) (totalScoreSum : uint256).

(** The contract's storage. The source declares [batches] as a mapping and
    reads [batches.length]: the table is the sequence of the batches written
    so far, [batches.length] is its length, and a write at index
    [batches.length] extends it by one. [fheInitialized] is what
    [FHE.isInitialized()] answers. [events] is the log, newest first. *)
Record State : Type := {
  providers : gmap Z bool;
  batches : list Batch;
  contributions : gmap Z SkillContribution;
  decryptionContexts : gmap Z DecryptionContext;
  lastSubmissionTime : gmap Z Z;
  lastDecryptionRequestTime : gmap Z Z;
  owner : address;
  paused : bool;
  cooldownSeconds : uint256;
  fheInitialized : bool;
  events : list Event
}.

(** [msg.sender] and [block.timestamp] of a call. *)
Record Msg : Set := {
  sender : address;
  timestamp : uint256
}.

Definition zero_contribution : SkillContribution :=
  {| sc_skillScore := 0; sc_contributionScore := 0; sc_totalScore := 0; sc_exists := false |}.
Definition zero_batch : Batch := {| batch_id := 0; batch_open := false |}.
Definition zero_context : DecryptionContext :=
  {| dc_batchId := 0; dc_stateHash := 0; dc_processed := false |}.

(** Reads of the mappings. *)
Definition provider_at (s : State) (a : address) : bool := default false (providers s !! a).
Definition batch_at (bs : list Batch) (i : Z) : Batch := default zero_batch (bs !! Z.to_nat i).
Definition contribution_at (s : State) (c : bytes32) : SkillContribution :=
  default zero_contribution (contributions s !! c).
Definition context_at (s : State) (r : uint256) : DecryptionContext :=
  default zero_context (decryptionContexts s !! r).
Definition lastSubmission_at (s : State) (a : address) : Z :=
  default 0 (lastSubmissionTime s !! a).
Definition lastDecryptionRequest_at (s : State) (a : address) : Z :=
  default 0 (lastDecryptionRequestTime s !! a).

Definition batches_length (s : State) : Z := Z.of_nat (length (batches s)).

(** [batches[i] = b]: in place below the length, one more entry at it. *)
Definition batches_write (bs : list Batch) (i : Z) (b : Batch) : list Batch :=
  if i <? Z.of_nat (length bs) then <[Z.to_nat i := b]> bs else bs ++ [b].

(** Field updates. *)
Definition set_providers (v : gmap Z bool) (s : State) : State :=
  {| providers := v; batches := batches s; contributions := contributions s;
     decryptionContexts := decryptionContexts s;
     lastSubmissionTime := lastSubmissionTime s;
     lastDecryptionRequestTime := lastDecryptionRequestTime s;
     owner := owner s; paused := paused s; cooldownSeconds := cooldownSeconds s;
     fheInitialized := fheInitialized s; events := events s |}.

Definition set_batches (v : list Batch) (s : State) : State :=
  {| providers := providers s; batches := v; contributions := contributions s;
     decryptionContexts := decryptionContexts s;
     lastSubmissionTime := lastSubmissionTime s;
     lastDecryptionRequestTime := lastDecryptionRequestTime s;
     owner := owner s; paused := paused s; cooldownSeconds := cooldownSeconds s;
     fheInitialized := fheInitialized s; events := events s |}.

Definition set_contributions (v : gmap Z SkillContribution) (s : State) : State :=
  {| providers := providers s; batches := batches s; contributions := v;
     decryptionContexts := decryptionContexts s;
     lastSubmissionTime := lastSubmissionTime s;
     lastDecryptionRequestTime := lastDecryptionRequestTime s;
     owner := owner s; paused := paused s; cooldownSeconds := cooldownSeconds s;
     fheInitialized := fheInitialized s; events := events s |}.

Definition set_decryptionContexts (v : gmap Z DecryptionContext) (s : State) : State :=
  {| providers := providers s; batches := batches s; contributions := contributions s;
     decryptionContexts := v;
     lastSubmissionTime := lastSubmissionTime s;
     lastDecryptionRequestTime := lastDecryptionRequestTime s;
     owner := owner s; paused := paused s; cooldownSeconds := cooldownSeconds s;
     fheInitialized := fheInitialized s; events := events s |}.

Definition set_lastSubmissionTime (v : gmap Z Z) (s : State) : State :=
  {| providers := providers s; batches := batches s; contributions := contributions s;
     decryptionContexts := decryptionContexts s;
     lastSubmissionTime := v;
     lastDecryptionRequestTime := lastDecryptionRequestTime s;
     owner := owner s; paused := paused s; cooldownSeconds := cooldownSeconds s;
     fheInitialized := fheInitialized s; events := events s |}.

Definition set_lastDecryptionRequestTime (v : gmap Z Z) (s : State) : State :=
  {| providers := providers s; batches := batches s; contributions := contributions s;
     decryptionContexts := decryptionContexts s;
     lastSubmissionTime := lastSubmissionTime s;
     lastDecryptionRequestTime := v;
     owner := owner s; paused := paused s; cooldownSeconds := cooldownSeconds s;
     fheInitialized := fheInitialized s; events := events s |}.

Definition set_paused (v : bool) (s : State) : State :=
  {| providers := providers s; batches := batches s; contributions := contributions s;
     decryptionContexts := decryptionContexts s;
     lastSubmissionTime := lastSubmissionTime s;
     lastDecryptionRequestTime := lastDecryptionRequestTime s;
     owner := owner s; paused := v; cooldownSeconds := cooldownSeconds s;
     fheInitialized := fheInitialized s; events := events s |}.

Definition set_cooldownSeconds (v : uint256) (s : State) : State :=
  {| providers := providers s; batches := batches s; contributions := contributions s;
     decryptionContexts := decryptionContexts s;
     lastSubmissionTime := lastSubmissionTime s;
     lastDecryptionRequestTime := lastDecryptionRequestTime s;
     owner := owner s; paused := paused s; cooldownSeconds := v;
     fheInitialized := fheInitialized s; events := events s |}.

Definition set_fheInitialized (v : bool) (s : State) : State :=
  {| providers := providers s; batches := batches s; contributions := contributions s;
     decryptionContexts := decryptionContexts s;
     lastSubmissionTime := lastSubmissionTime s;
     lastDecryptionRequestTime := lastDecryptionRequestTime s;
     owner := owner s; paused := paused s; cooldownSeconds := cooldownSeconds s;
     fheInitialized := v; events := events s |}.

(** [emit e;] *)
Definition emit (e : Event) (s : State) : State :=
  {| providers := providers s; batches := batches s; contributions := contributions s;
     decryptionContexts := decryptionContexts s;
     lastSubmissionTime := lastSubmissionTime s;
     lastDecryptionRequestTime := lastDecryptionRequestTime s;
     owner := owner s; paused := paused s; cooldownSeconds := cooldownSeconds s;
     fheInitialized := fheInitialized s; events := e :: events s |}.

(** ** The external capabilities *)

(** What the contract consumes from the FHE library and the EVM:
    [FHE.add], [FHE.asEuint32], [FHE.toBytes32], [FHE.checkSignatures]
    (which returns or reverts: [true] or [false] here),
    [keccak256(abi.encode(cts, address(this)))] and [address(this)]. *)
Class Fhevm : Type := {
  FHE_add : euint32 -> euint32 -> euint32;
  FHE_asEuint32 : Z -> euint32;
  FHE_toBytes32 : euint32 -> bytes32;
  FHE_checkSignatures : uint256 -> bytes -> bytes -> bool;
  keccak256_encode : list bytes32 -> address -> bytes32;
  this : address
}.

(** [abi.decode(cleartexts, (uint256))]: the big-endian value of the word. *)
Definition abi_decode_uint256 (cleartexts : bytes) : Z :=
  fold_left (fun acc b => acc * 256 + Z.of_N (Byte.to_N b)) cleartexts 0.

(** ** The contract *)

Section Contract.

Context {F : Fhevm}.

(** *** Modifiers *)

Definition onlyOwner (s : State) (m : Msg) : result unit :=
  revert_if (negb (bool_decide (sender m = owner s))) NotOwner.

Definition onlyProvider (s : State) (m : Msg) : result unit :=
  revert_if (negb (provider_at s (sender m))) NotProvider.

Definition whenNotPaused (s : State) : result unit :=
  revert_if (paused s) Paused.

Definition checkSubmissionCooldown (s : State) (m : Msg) : result unit :=
  limit ← checked_add (lastSubmission_at s (sender m)) (cooldownSeconds s);
  revert_if (timestamp m <? limit) CooldownActive.

Definition checkDecryptionCooldown (s : State) (m : Msg) : result unit :=
  limit ← checked_add (lastDecryptionRequest_at s (sender m)) (cooldownSeconds s);
  revert_if (timestamp m <? limit) CooldownActive.

(** *** Construction and initialisation *)

Definition _initIfNeeded (s : State) : State :=
  if negb (fheInitialized s) then set_fheInitialized true s else s.

Definition _requireInitialized (s : State) : result unit :=
  revert_if (negb (fheInitialized s)) InvalidState.

Definition constructor (m : Msg) : State :=
  _initIfNeeded
    {| providers := ∅; batches := []; contributions := ∅; decryptionContexts := ∅;
       lastSubmissionTime := ∅; lastDecryptionRequestTime := ∅;
       owner := sender m; paused := false; cooldownSeconds := 60;
       fheInitialized := false; events := [] |}.

(** *** Access control *)

Definition addProvider (s : State) (m : Msg) (_provider : address) : result State :=
  onlyOwner s m;;
  whenNotPaused s;;
  let s := set_providers (<[_provider := true]> (providers s)) s in
  Ok (emit (EvProviderAdded _provider) s).

Definition removeProvider (s : State) (m : Msg) (_provider : address) : result State :=
  onlyOwner s m;;
  whenNotPaused s;;
  let s := set_providers (<[_provider := false]> (providers s)) s in
  Ok (emit (EvProviderRemoved _provider) s).

Definition pause (s : State) (m : Msg) : result State :=
  onlyOwner s m;;
  let s := set_paused true s in
  Ok (emit (EvPaused (sender m)) s).

Definition unpause (s : State) (m : Msg) : result State :=
  onlyOwner s m;;
  let s := set_paused false s in
  Ok (emit (EvUnpaused (sender m)) s).

Definition setCooldownSeconds (s : State) (m : Msg) (_cooldownSeconds : uint256) : result State :=
  onlyOwner s m;;
  revert_if (_cooldownSeconds =? 0) InvalidArgument;;
  let s := set_cooldownSeconds _cooldownSeconds s in
  Ok (emit (EvCooldownSet _cooldownSeconds) s).

(** *** Batches *)

Definition openBatch (s : State) (m : Msg) : result State :=
  onlyOwner s m;;
  whenNotPaused s;;
  let newBatchId := uint32 (batches_length s) in
  let s := set_batches
             (batches_write (batches s) newBatchId
                {| batch_id := newBatchId; batch_open := true |}) s in
  Ok (emit (EvBatchOpened newBatchId) s).

Definition closeBatch (s : State) (m : Msg) (_batchId : Z) : result State :=
  onlyOwner s m;;
  whenNotPaused s;;
  revert_if (batches_length s <=? _batchId) InvalidBatch;;
  let batch := batch_at (batches s) _batchId in
  revert_if (negb (batch_open batch)) BatchClosed;;
  let s := set_batches
             (batches_write (batches s) _batchId
                {| batch_id := batch_id batch; batch_open := false |}) s in
  Ok (emit (EvBatchClosed _batchId) s).

(** *** Contributions *)

Definition submitContribution (s : State) (m : Msg)
    (_batchId : Z) (_contributionId : bytes32)
    (_skillScore _contributionScore : euint32) : result State :=
  onlyProvider s m;;
  whenNotPaused s;;
  checkSubmissionCooldown s m;;
  revert_if (batches_length s <=? _batchId) InvalidBatch;;
  revert_if (negb (batch_open (batch_at (batches s) _batchId))) BatchClosed;;
  revert_if (sc_exists (contribution_at s _contributionId)) InvalidArgument;;
  let s := _initIfNeeded s in
  let totalScore := FHE_add _skillScore _contributionScore in
  let s := set_contributions
             (<[_contributionId :=
                  {| sc_skillScore := _skillScore;
                     sc_contributionScore := _contributionScore;
                     sc_totalScore := totalScore;
                     sc_exists := true |}]> (contributions s)) s in
  let s := set_lastSubmissionTime
             (<[sender m := timestamp m]> (lastSubmissionTime s)) s in
  Ok (emit (EvContributionSubmitted (sender m) _batchId _contributionId) s).

(** *** The decryption handshake *)

Definition _hashCiphertexts (cts : list bytes32) : bytes32 :=
  keccak256_encode cts this.

(** The inner loop of the aggregate: [count++] for every [j] below
    [batches.length] with [batches[uint32(j)].id == target]. *)
Fixpoint count_loop (bs : list Batch) (target : Z) (js : list nat) (count : Z) : Z :=
  match js with
  | [] => count
  | j :: js' =>
      count_loop bs target js'
        (if batch_id (batch_at bs (uint32 (Z.of_nat j))) =? target
         then count + 1 else count)
  end.

(** The outer loop: at the first [i] whose batch has the id, run the inner
    loop over the whole table, replace the sum by the encrypted count when
    the count is positive, and [break]. *)
Fixpoint sum_loop (bs : list Batch) (target : Z) (ixs : list nat) (totalScoreSum : euint32)
    : euint32 :=
  match ixs with
  | [] => totalScoreSum
  | i :: ixs' =>
      if batch_id (batch_at bs (uint32 (Z.of_nat i))) =? target
      then
        let count := count_loop bs target (seq 0 (length bs)) 0 in
        if 0 <? count then FHE_asEuint32 (uint32 count) else totalScoreSum
      else sum_loop bs target ixs' totalScoreSum
  end.

(** The ciphertext array both [requestBatchScoreDecryption] and [myCallback]
    build for a batch id: [cts[0] = FHE.toBytes32(totalScoreSum)]. The two
    functions spell out the same loops, over [_batchId] in the one and over
    [currentBatchId] in the other. *)
Definition batchCiphertexts (s : State) (batchId : Z) : list bytes32 :=
  let totalScoreSum :=
    sum_loop (batches s) batchId (seq 0 (length (batches s))) (FHE_asEuint32 0) in
  [FHE_toBytes32 totalScoreSum].

(** [requestId] is what [FHE.requestDecryption] returns: the oracle's choice,
    an input of the call. *)
Definition requestBatchScoreDecryption (s : State) (m : Msg)
    (_batchId : Z) (requestId : uint256) : result State :=
  onlyOwner s m;;
  whenNotPaused s;;
  checkDecryptionCooldown s m;;
  revert_if (batches_length s <=? _batchId) InvalidBatch;;
  revert_if (batch_open (batch_at (batches s) _batchId)) InvalidBatch;;
  _requireInitialized s;;
  let cts := batchCiphertexts s _batchId in
  let stateHash := _hashCiphertexts cts in
  let s := set_decryptionContexts
             (<[requestId :=
                  {| dc_batchId := _batchId; dc_stateHash := stateHash;
                     dc_processed := false |}]> (decryptionContexts s)) s in
  let s := set_lastDecryptionRequestTime
             (<[sender m := timestamp m]> (lastDecryptionRequestTime s)) s in
  Ok (emit (EvDecryptionRequested requestId _batchId) s).

Definition myCallback (s : State) (m : Msg)
    (requestId : uint256) (cleartexts proof : bytes) : result State :=
  revert_if (dc_processed (context_at s requestId)) ReplayDetected;;
  revert_if (negb (length cleartexts =? 32)%nat) DecryptionFailed;;
  let currentBatchId := dc_batchId (context_at s requestId) in
  let cts := batchCiphertexts s currentBatchId in
  let currentHash := _hashCiphertexts cts in
  revert_if (negb (currentHash =? dc_stateHash (context_at s requestId))) StateMismatch;;
  if FHE_checkSignatures requestId cleartexts proof then
    let decryptedTotalScoreSum := abi_decode_uint256 cleartexts in
    let ctx := context_at s requestId in
    let s := set_decryptionContexts
               (<[requestId :=
                    {| dc_batchId := dc_batchId ctx; dc_stateHash := dc_stateHash ctx;
                       dc_processed := true |}]> (decryptionContexts s)) s in
    Ok (emit (EvDecryptionCompleted requestId currentBatchId decryptedTotalScoreSum) s)
  else Err DecryptionFailed.

(** *** Transactions *)

Inductive Call : Type :=
  | CAddProvider (_provider : address)
  | CRemoveProvider (_provider : address)
  | CPause
  | CUnpause
  | CSetCooldownSeconds (_cooldownSeconds : uint256)
  | COpenBatch
  | CCloseBatch (_batchId : Z)
  | CSubmitContribution (_batchId : Z) (_contributionId : bytes32)
      (_skillScore _contributionScore : euint32)
  | CRequestBatchScoreDecryption (_batchId : Z) (requestId : uint256)
  | CMyCallback (requestId : uint256) (cleartexts proof : bytes).

Definition exec (s : State) (m : Msg) (c : Call) : result State :=
  match c with
  | CAddProvider p => addProvider s m p
  | CRemoveProvider p => removeProvider s m p
  | CPause => pause s m
  | CUnpause => unpause s m
  | CSetCooldownSeconds n => setCooldownSeconds s m n
  | COpenBatch => openBatch s m
  | CCloseBatch b => closeBatch s m b
  | CSubmitContribution b c h1 h2 => submitContribution s m b c h1 h2
  | CRequestBatchScoreDecryption b r => requestBatchScoreDecryption s m b r
  | CMyCallback r ct pf => myCallback s m r ct pf
  end.

(** A transaction: a reverted call changes nothing. *)
Definition step (s : State) (tx : Msg * Call) : State :=
  match exec s tx.1 tx.2 with
  | Ok s' => s'
  | Err _ => s
  end.

Definition run (s : State) (txs : list (Msg * Call)) : State :=
  fold_left step txs s.

End Contract.

(** ** Observations on the log and on traces *)

Definition is_completed (requestId : uint256) (e : Event) : bool :=
  match e with
  | EvDecryptionCompleted r _ _ => r =? requestId
  | _ => false
  end.

(** How many [DecryptionCompleted] events the log holds for a request. *)
Fixpoint completed_count (requestId : uint256) (evs : list Event) : nat :=
  match evs with
  | [] => 0%nat
  | e :: evs' =>
      ((if is_completed requestId e then 1 else 0) + completed_count requestId evs')%nat
  end.

Definition submitted_id (e : Event) : option bytes32 :=
  match e with
  | EvContributionSubmitted _ _ c => Some c
  | _ => None
  end.

(** The contribution ids of the [ContributionSubmitted] events of the log. *)
Definition submitted_ids (evs : list Event) : list bytes32 := omap submitted_id evs.

(** The transaction is a decryption request to which the oracle gives this id. *)
Definition requests_with (requestId : uint256) (tx : Msg * Call) : Prop :=
  match tx.2 with
  | CRequestBatchScoreDecryption _ r => r = requestId
  | _ => False
  end.

(** The oracle does not hand out [requestId] again in the trace (request ids
    are the oracle's and are unique). *)
Definition oracle_fresh (requestId : uint256) (txs : list (Msg * Call)) : Prop :=
  Forall (fun tx => ~ requests_with requestId tx) txs.

(** The calls behind [whenNotPaused]. *)
Definition pause_gated (c : Call) : bool :=
  match c with
  | CAddProvider _ | CRemoveProvider _ | COpenBatch | CCloseBatch _
  | CSubmitContribution _ _ _ _ | CRequestBatchScoreDecryption _ _ => true
  | CPause | CUnpause | CSetCooldownSeconds _ | CMyCallback _ _ _ => false
  end.

(** What a paused contract answers to a call behind [onlyOwner] (resp.
    [onlyProvider]) and [whenNotPaused]: the role is checked first. *)
Definition owner_gate_error (s : State) (m : Msg) : Error :=
  if bool_decide (sender m = owner s) then Paused else NotOwner.

Definition provider_gate_error (s : State) (m : Msg) : Error :=
  if provider_at s (sender m) then Paused else NotProvider.

(** The index test of both loops of the aggregate. *)
Definition has_id (bs : list Batch) (target : Z) (j : nat) : bool :=
  batch_id (batch_at bs (uint32 (Z.of_nat j))) =? target.

(** The registry agrees with the log: the logged submissions have distinct
    ids, they are the ids under which a record exists, and every stored record
    carries the [exists] flag. *)
Definition ledger_inv (s : State) : Prop :=
  NoDup (submitted_ids (events s))
  /\ (forall c, c ∈ submitted_ids (events s) <-> sc_exists (contribution_at s c) = true)
  /\ (forall c r, contributions s !! c = Some r -> sc_exists r = true).

(** ** Footprints, invariants of the reachable states *)

(** The storage each call may write, read off the assignments of its body. *)
Definition writes_providers (c : Call) : bool :=
  match c with CAddProvider _ | CRemoveProvider _ => true | _ => false end.
Definition writes_paused (c : Call) : bool :=
  match c with CPause | CUnpause => true | _ => false end.
Definition writes_cooldownSeconds (c : Call) : bool :=
  match c with CSetCooldownSeconds _ => true | _ => false end.
Definition writes_batches (c : Call) : bool :=
  match c with COpenBatch | CCloseBatch _ => true | _ => false end.
Definition writes_contributions (c : Call) : bool :=
  match c with CSubmitContribution _ _ _ _ => true | _ => false end.
Definition writes_decryptionContexts (c : Call) : bool :=
  match c with CRequestBatchScoreDecryption _ _ | CMyCallback _ _ _ => true | _ => false end.
Definition writes_lastDecryptionRequestTime (c : Call) : bool :=
  match c with CRequestBatchScoreDecryption _ _ => true | _ => false end.

(** The calls behind [onlyOwner]. *)
Definition owner_only (c : Call) : bool :=
  match c with
  | CSubmitContribution _ _ _ _ | CMyCallback _ _ _ => false
  | _ => true
  end.

(** Every batch of the table carries its index as id, and the table has at
    most [2^32] entries. *)
Definition batch_table_inv (bs : list Batch) : Prop :=
  Z.of_nat (length bs) <= 2 ^ 32
  /\ forall (i : nat) b, bs !! i = Some b -> batch_id b = Z.of_nat i.

(** The oracle ids of the decryption requests of a trace, in order. *)
Definition request_id_of (tx : Msg * Call) : option uint256 :=
  match tx.2 with
  | CRequestBatchScoreDecryption _ r => Some r
  | _ => None
  end.

Definition request_ids (txs : list (Msg * Call)) : list uint256 := omap request_id_of txs.

Section TraceObservations.

Context {F : Fhevm}.

(** A pending context points below the length of the batch table, and its
    hash is the hash of what the callback recomputes for its batch. *)
Definition contexts_anchored (s : State) : Prop :=
  forall requestId ctx,
    decryptionContexts s !! requestId = Some ctx ->
    dc_processed ctx = false ->
    dc_batchId ctx < batches_length s
    /\ dc_stateHash ctx = _hashCiphertexts (batchCiphertexts s (dc_batchId ctx)).

(** What holds in every state the contract reaches. *)
Definition reachable_inv (s : State) : Prop :=
  batch_table_inv (batches s)
  /\ fheInitialized s = true
  /\ cooldownSeconds s <> 0
  /\ contexts_anchored s.

(** How many transactions of a trace are accepted (do not revert). *)
Fixpoint accepted (s : State) (txs : list (Msg * Call)) : nat :=
  match txs with
  | [] => 0%nat
  | tx :: txs' =>
      ((match exec s tx.1 tx.2 with Ok _ => 1 | Err _ => 0 end)
       + accepted (step s tx) txs')%nat
  end.

(** The two hashes a reached state can store are not the zero word (the
    value a missing context reads as). *)
Definition snapshot_hashes_nonzero : Prop :=
  _hashCiphertexts [FHE_toBytes32 (FHE_asEuint32 0)] <> 0
  /\ _hashCiphertexts [FHE_toBytes32 (FHE_asEuint32 1)] <> 0.

(** Every context was stored by a logged request for its batch, and every
    logged completion answers a logged request for the same id and batch. *)
Definition completions_requested (s : State) : Prop :=
  (forall requestId ctx,
     decryptionContexts s !! requestId = Some ctx ->
     EvDecryptionRequested requestId (dc_batchId ctx) ∈ events s)
  /\ (forall requestId b total,
        EvDecryptionCompleted requestId b total ∈ events s ->
        EvDecryptionRequested requestId b ∈ events s).

(** The bookkeeping of completions against the request ids [used] so far. *)
Definition completions_once (s : State) (used : list uint256) : Prop :=
  (forall requestId ctx, decryptionContexts s !! requestId = Some ctx -> requestId ∈ used)
  /\ (forall requestId, (completed_count requestId (events s) <= 1)%nat)
  /\ (forall requestId,
        completed_count requestId (events s) = 1%nat ->
        dc_processed (context_at s requestId) = true /\ requestId ∈ used).

(** Every pending request names a closed batch of the table. *)
Definition pending_closed (s : State) : Prop :=
  forall requestId ctx,
    decryptionContexts s !! requestId = Some ctx ->
    dc_processed ctx = false -> 0 <= dc_batchId ctx ->
    dc_batchId ctx < batches_length s
    /\ batch_open (batch_at (batches s) (dc_batchId ctx)) = false.

End TraceObservations.


(** ** A sample instance of the capabilities

    Used to run the contract on concrete transactions. Handles are numbers
    the contract never inspects; the signature check accepts the proofs that
    start with byte [01]. *)
Module Sample.

Definition sample_keccak (cts : list Z) (a : Z) : Z :=
  1 + Z.abs a + fold_left (fun acc c => 31 * acc + Z.abs c) cts 7.

#[export] Instance fhevm : Fhevm := {|
  FHE_add a b := 1000000 + a + b;
  FHE_asEuint32 v := 5000 + v;
  FHE_toBytes32 h := h;
  FHE_checkSignatures _ _ pf := match pf with x01 :: _ => true | _ => false end;
  keccak256_encode := sample_keccak;
  this := 4096
|}.

Definition deployer : address := 1.
Definition alice : address := 2.
Definition mallory : address := 666.

Definition at_time (a : address) (t : Z) : Msg := {| sender := a; timestamp := t |}.

(** A 32-byte cleartext (the word 42) and proofs. *)
Definition cleartext42 : bytes := repeat x00 31 ++ [x2a].
Definition good_proof : bytes := [x01; xff].
Definition bad_proof : bytes := [x02].

Definition oracle : address := 9000.

Definition genesis : State := constructor (at_time deployer 1000).

(** Two batches are opened, alice becomes a provider and submits contribution
    [11] into batch 0, which is then closed; batch 1 stays open. *)
Definition setup : list (Msg * Call) :=
  [ (at_time deployer 1001, COpenBatch);
    (at_time deployer 1002, COpenBatch);
    (at_time deployer 1003, CAddProvider alice);
    (at_time alice 2000, CSubmitContribution 0 11 70 80);
    (at_time deployer 2001, CCloseBatch 0) ].

(** The same with a second contribution, [13], in batch 0. *)
Definition setup_two : list (Msg * Call) :=
  [ (at_time deployer 1001, COpenBatch);
    (at_time deployer 1002, COpenBatch);
    (at_time deployer 1003, CAddProvider alice);
    (at_time alice 2000, CSubmitContribution 0 11 70 80);
    (at_time alice 2100, CSubmitContribution 0 13 75 85);
    (at_time deployer 2101, CCloseBatch 0) ].

Definition closed : State := run genesis setup.

(** The owner requests the decryption of batch 0; the oracle answers with
    request id 7. *)
Definition request7 : Msg * Call :=
  (at_time deployer 2102, CRequestBatchScoreDecryption 0 7).

Definition requested : State := step closed request7.
Definition requested_two : State := step (run genesis setup_two) request7.

(** After the request, alice submits contribution [12] (batch 1 is the open
    one). *)
Definition late_submission : Msg * Call :=
  (at_time alice 3000, CSubmitContribution 1 12 71 81).

Definition drifted : State := step requested late_submission.

Definition callback7 (a : address) : Msg * Call :=
  (at_time a 3001, CMyCallback 7 cleartext42 good_proof).

Definition completed : State := step drifted (callback7 oracle).

(** The owner pauses the contract while request 7 is pending. *)
Definition halted : State := step requested (at_time deployer 2200, CPause).

(** The owner sets the cooldown of [drifted] to the largest [uint256]. *)
Definition overflowing : State :=
  step drifted (at_time deployer 4000, CSetCooldownSeconds (2 ^ 256 - 1)).

End Sample.

Module SampleTraces.
Import Sample.

(** The transactions that lead from the construction to [drifted], and on
    to the accepted callback of request 7 and a replay of it. *)
Definition history : list (Msg * Call) := setup ++ [request7; late_submission].

Definition history_replayed : list (Msg * Call) :=
  history ++ [callback7 oracle; callback7 mallory].




End SampleTraces.

(** ** Reasoning support *)

Ltac unfold_result :=
  unfold mbind, result_bind, mret, result_ret, revert_if, checked_add in *.

Ltac unfold_modifiers :=
  unfold onlyOwner, onlyProvider, whenNotPaused, checkSubmissionCooldown,
    checkDecryptionCooldown, _requireInitialized in *.

(** Split on every guard that is still undecided. *)
Ltac case_guards :=
  repeat match goal with
    | H : context [if ?c then _ else _] |- _ => destruct c eqn:?; try discriminate H
    | |- context [if ?c then _ else _] => destruct c eqn:?
    end.

Ltac open_call :=
  unfold_modifiers; unfold_result; cbn [fst snd] in *; case_guards;
  try discriminate.

Section Loops.

Context {F : Fhevm}.

Lemma count_loop_filter bs target js count :
  count_loop bs target js count
  = count + Z.of_nat (length (filter (fun j => has_id bs target j = true) js)).
Proof.
  revert count. induction js as [|j js IH]; intros count; cbn [count_loop].
  - cbn. lia.
  - rewrite IH, filter_cons. fold (has_id bs target j).
    destruct (has_id bs target j) eqn:E.
    + rewrite decide_True by reflexivity. cbn [length]. lia.
    + rewrite decide_False by discriminate. lia.
Qed.

(** The outer loop only decides between the start value and the encrypted
    count, whatever index list it scans. *)
Lemma sum_loop_cases bs target ixs init :
  sum_loop bs target ixs init =
    if existsb (has_id bs target) ixs
    then (let count := count_loop bs target (seq 0 (length bs)) 0 in
          if 0 <? count then FHE_asEuint32 (uint32 count) else init)
    else init.
Proof.
  induction ixs as [|i ixs IH]; cbn [sum_loop existsb]; [reflexivity|].
  fold (has_id bs target i). destruct (has_id bs target i); cbn [orb]; auto.
Qed.

Lemma existsb_false_filter {A} (p : A -> bool) (l : list A) :
  existsb p l = false -> filter (fun x => p x = true) l = [].
Proof.
  induction l as [|x l IH]; cbn [existsb]; [reflexivity|].
  intros [Hx Hl]%orb_false_iff. rewrite filter_cons, decide_False, IH; auto.
  rewrite Hx. discriminate.
Qed.

(** What the two nested loops compute. *)
Lemma sum_loop_count bs target :
  sum_loop bs target (seq 0 (length bs)) (FHE_asEuint32 0) =
    let count := count_loop bs target (seq 0 (length bs)) 0 in
    if 0 <? count then FHE_asEuint32 (uint32 count) else FHE_asEuint32 0.
Proof.
  rewrite sum_loop_cases.
  destruct (existsb (has_id bs target) (seq 0 (length bs))) eqn:E; [reflexivity|].
  cbn zeta. rewrite count_loop_filter, existsb_false_filter by exact E.
  reflexivity.
Qed.

(** Below [2^32] entries the cast [uint32(j)] is the identity on indices. *)
Lemma batch_at_uint32 bs (j : nat) :
  Z.of_nat (length bs) <= 2 ^ 32 -> (j < length bs)%nat ->
  bs !! j = Some (batch_at bs (uint32 (Z.of_nat j))).
Proof.
  intros Hlen Hj. unfold batch_at, uint32.
  rewrite Z.mod_small by lia. rewrite Nat2Z.id.
  destruct (lookup_lt_is_Some_2 bs j Hj) as [b ->]. reflexivity.
Qed.

Lemma filter_has_id_from bs target (pre rest : list Batch) :
  bs = pre ++ rest -> Z.of_nat (length bs) <= 2 ^ 32 ->
  length (filter (fun j => has_id bs target j = true) (seq (length pre) (length rest)))
  = length (filter (fun b => batch_id b = target) rest).
Proof.
  revert pre. induction rest as [|b rest IH]; intros pre Hbs Hlen; [reflexivity|].
  cbn [length seq]. rewrite !filter_cons.
  assert (Hb : batch_at bs (uint32 (Z.of_nat (length pre))) = b).
  { assert (Hlt : (length pre < length bs)%nat).
    { rewrite Hbs, length_app. cbn. lia. }
    pose proof (batch_at_uint32 bs (length pre) Hlen Hlt) as E.
    rewrite Hbs, list_lookup_middle in E by reflexivity.
    rewrite <- Hbs in E. congruence. }
  specialize (IH (pre ++ [b])).
  rewrite length_app, Nat.add_1_r in IH.
  rewrite <- app_assoc in IH. specialize (IH Hbs Hlen).
  assert (Hid : has_id bs target (length pre) = (batch_id b =? target)).
  { unfold has_id. rewrite Hb. reflexivity. }
  rewrite Hid.
  destruct (decide (batch_id b = target)) as [Heq|Hne].
  - rewrite decide_True by (apply Z.eqb_eq; exact Heq). cbn [length]. congruence.
  - rewrite decide_False by (rewrite (proj2 (Z.eqb_neq _ _) Hne); discriminate).
    exact IH.
Qed.

(** The count is the number of batches carrying the id. *)
Lemma count_loop_matching bs target :
  Z.of_nat (length bs) <= 2 ^ 32 ->
  count_loop bs target (seq 0 (length bs)) 0
  = Z.of_nat (length (filter (fun b => batch_id b = target) bs)).
Proof.
  intros Hlen. rewrite count_loop_filter.
  pose proof (filter_has_id_from bs target [] bs eq_refl Hlen) as E.
  cbn [length] in E. rewrite E. lia.
Qed.

End Loops.

(** ** Transactions and traces *)

Section Traces.

Context {F : Fhevm}.

Lemma step_err s m c e : exec s m c = Err e -> step s (m, c) = s.
Proof. unfold step. cbn [fst snd]. intros ->. reflexivity. Qed.

Lemma run_cons s tx txs : run s (tx :: txs) = run (step s tx) txs.
Proof. reflexivity. Qed.

(** A property kept by every transaction is kept by every trace. *)
Lemma run_invariant (P : State -> Prop) :
  (forall s tx, P s -> P (step s tx)) ->
  forall txs s, P s -> P (run s txs).
Proof.
  intros Hstep txs. induction txs as [|tx txs IH]; intros s Hs; [exact Hs|].
  rewrite run_cons. apply IH, Hstep, Hs.
Qed.

End Traces.

(** ** The aggregate and its hash *)

Section Aggregate.

Context {F : Fhevm}.

Lemma batchCiphertexts_batches s1 s2 batchId :
  batches s1 = batches s2 -> batchCiphertexts s1 batchId = batchCiphertexts s2 batchId.
Proof. unfold batchCiphertexts. intros ->. reflexivity. Qed.

Lemma request_context s m batchId requestId s' :
  requestBatchScoreDecryption s m batchId requestId = Ok s' ->
  context_at s' requestId =
    {| dc_batchId := batchId;
       dc_stateHash := _hashCiphertexts (batchCiphertexts s batchId);
       dc_processed := false |}.
Proof.
  unfold requestBatchScoreDecryption. intros H. open_call.
  injection H as <-. unfold context_at. cbn.
  rewrite lookup_insert_eq. reflexivity.
Qed.

(** The outcome of the callback, as far as acceptance and the error go, is
    decided by the batch table and the request's context. *)
Lemma myCallback_outcome s1 s2 m1 m2 requestId cleartexts proof :
  batches s1 = batches s2 ->
  context_at s1 requestId = context_at s2 requestId ->
  error_of (myCallback s1 m1 requestId cleartexts proof)
  = error_of (myCallback s2 m2 requestId cleartexts proof).
Proof.
  intros Hb Hc. unfold myCallback.
  rewrite (batchCiphertexts_batches s1 s2 _ Hb), Hc.
  open_call; reflexivity.
Qed.

(** In particular no change of the stored contributions changes what the
    callback answers. *)
Lemma myCallback_ignores_contributions s v m requestId cleartexts proof :
  error_of (myCallback (set_contributions v s) m requestId cleartexts proof)
  = error_of (myCallback s m requestId cleartexts proof).
Proof. apply myCallback_outcome; reflexivity. Qed.

(** C2: two states with the same batch table, whatever their stored
    contributions (and the rest of their storage), give the same ciphertext
    array and the same snapshot hash for every batch id; a decryption request
    accepted in both stores the same context; the callback re-derives the same
    hash and reaches the same verdict; the hashed aggregate is the encrypted
    number of batches whose id is the requested one (zero when there is
    none), and no score handle of a contribution enters it. *)
Theorem C2_aggregate_depends_on_batch_table_only (s1 s2 : State) :
  batches s1 = batches s2 ->
  (forall batchId,
     batchCiphertexts s1 batchId = batchCiphertexts s2 batchId
     /\ _hashCiphertexts (batchCiphertexts s1 batchId)
        = _hashCiphertexts (batchCiphertexts s2 batchId))
  /\ (forall batchId requestId m1 m2 s1' s2',
        requestBatchScoreDecryption s1 m1 batchId requestId = Ok s1' ->
        requestBatchScoreDecryption s2 m2 batchId requestId = Ok s2' ->
        context_at s1' requestId = context_at s2' requestId
        /\ dc_stateHash (context_at s1' requestId)
           = _hashCiphertexts (batchCiphertexts s2 batchId))
  /\ (forall requestId m1 m2 cleartexts proof,
        context_at s1 requestId = context_at s2 requestId ->
        error_of (myCallback s1 m1 requestId cleartexts proof)
        = error_of (myCallback s2 m2 requestId cleartexts proof))
  /\ (forall batchId,
        Z.of_nat (length (batches s1)) <= 2 ^ 32 ->
        let count :=
          Z.of_nat (length (filter (fun b => batch_id b = batchId) (batches s1))) in
        batchCiphertexts s1 batchId =
          [FHE_toBytes32
             (if 0 <? count then FHE_asEuint32 (uint32 count) else FHE_asEuint32 0)]).
Proof.
  intros Hb. repeat split.
  - apply batchCiphertexts_batches, Hb.
  - rewrite (batchCiphertexts_batches s1 s2 _ Hb). reflexivity.
  - rewrite (request_context _ _ _ _ _ H), (request_context _ _ _ _ _ H0).
    rewrite (batchCiphertexts_batches s1 s2 _ Hb). reflexivity.
  - rewrite (request_context _ _ _ _ _ H). cbn.
    rewrite (batchCiphertexts_batches s1 s2 _ Hb). reflexivity.
  - intros requestId m1 m2 cleartexts proof Hc.
    apply myCallback_outcome; assumption.
  - intros batchId Hlen count. unfold batchCiphertexts.
    rewrite sum_loop_count. cbn zeta.
    rewrite (count_loop_matching _ _ Hlen). reflexivity.
Qed.

End Aggregate.

(** ** The cooldown guard *)

Section Cooldown.

Context {F : Fhevm}.

Lemma checked_add_in_range a b :
  a + b < UINT256_MODULUS -> checked_add a b = Ok (a + b).
Proof.
  intros H. unfold checked_add.
  rewrite (proj2 (Z.ltb_lt _ _) H). reflexivity.
Qed.

(** Beyond the range of [uint256] the guard's addition panics. *)
Lemma submit_cooldown_out_of_range s m b c h1 h2 :
  provider_at s (sender m) = true -> paused s = false ->
  UINT256_MODULUS <= lastSubmission_at s (sender m) + cooldownSeconds s ->
  submitContribution s m b c h1 h2 = Err Panic.
Proof.
  intros Hprov Hpaused Hrange.
  unfold submitContribution, onlyProvider, whenNotPaused, checkSubmissionCooldown.
  rewrite Hprov, Hpaused. unfold checked_add.
  rewrite (proj2 (Z.ltb_ge _ _) Hrange). reflexivity.
Qed.

Lemma submit_cooldown_iff s m b c h1 h2 :
  provider_at s (sender m) = true -> paused s = false ->
  lastSubmission_at s (sender m) + cooldownSeconds s < UINT256_MODULUS ->
  submitContribution s m b c h1 h2 = Err CooldownActive
  <-> timestamp m < lastSubmission_at s (sender m) + cooldownSeconds s.
Proof.
  intros Hprov Hpaused Hrange.
  unfold submitContribution, onlyProvider, whenNotPaused, checkSubmissionCooldown.
  rewrite Hprov, Hpaused, (checked_add_in_range _ _ Hrange).
  unfold_result. cbn [negb].
  destruct (timestamp m <? _) eqn:Hlt.
  - apply Z.ltb_lt in Hlt. split; [intros _; exact Hlt | reflexivity].
  - apply Z.ltb_ge in Hlt. split; [|lia].
    intros H. case_guards; discriminate.
Qed.

Lemma request_cooldown_iff s m b r :
  sender m = owner s -> paused s = false ->
  lastDecryptionRequest_at s (sender m) + cooldownSeconds s < UINT256_MODULUS ->
  requestBatchScoreDecryption s m b r = Err CooldownActive
  <-> timestamp m < lastDecryptionRequest_at s (sender m) + cooldownSeconds s.
Proof.
  intros Hown Hpaused Hrange.
  unfold requestBatchScoreDecryption, onlyOwner, whenNotPaused, checkDecryptionCooldown.
  rewrite bool_decide_eq_true_2 by exact Hown.
  rewrite Hpaused, (checked_add_in_range _ _ Hrange).
  unfold_result. cbn [negb].
  destruct (timestamp m <? _) eqn:Hlt.
  - apply Z.ltb_lt in Hlt. split; [intros _; exact Hlt | reflexivity].
  - apply Z.ltb_ge in Hlt. split; [|lia].
    unfold _requireInitialized, revert_if. intros H. case_guards; discriminate.
Qed.

Lemma submit_records_time s m b c h1 h2 s' :
  submitContribution s m b c h1 h2 = Ok s' ->
  lastSubmission_at s' (sender m) = timestamp m
  /\ (forall a, a <> sender m -> lastSubmission_at s' a = lastSubmission_at s a)
  /\ lastDecryptionRequestTime s' = lastDecryptionRequestTime s.
Proof.
  unfold submitContribution. intros H. open_call. injection H as <-.
  unfold lastSubmission_at, _initIfNeeded. repeat split.
  - destruct (negb (fheInitialized s)); cbn; rewrite lookup_insert_eq; reflexivity.
  - intros a Ha.
    destruct (negb (fheInitialized s)); cbn; rewrite lookup_insert_ne by congruence;
      reflexivity.
  - destruct (negb (fheInitialized s)); reflexivity.
Qed.

Lemma request_records_time s m b r s' :
  requestBatchScoreDecryption s m b r = Ok s' ->
  lastDecryptionRequest_at s' (sender m) = timestamp m
  /\ (forall a, a <> sender m ->
        lastDecryptionRequest_at s' a = lastDecryptionRequest_at s a)
  /\ lastSubmissionTime s' = lastSubmissionTime s.
Proof.
  unfold requestBatchScoreDecryption. intros H. open_call. injection H as <-.
  unfold lastDecryptionRequest_at. repeat split.
  - cbn. rewrite lookup_insert_eq. reflexivity.
  - intros a Ha. cbn. rewrite lookup_insert_ne by congruence. reflexivity.
Qed.

Lemma request_cooldown_out_of_range s m b r :
  sender m = owner s -> paused s = false ->
  UINT256_MODULUS <= lastDecryptionRequest_at s (sender m) + cooldownSeconds s ->
  requestBatchScoreDecryption s m b r = Err Panic.
Proof.
  intros Hown Hpaused Hrange.
  unfold requestBatchScoreDecryption, onlyOwner, whenNotPaused, checkDecryptionCooldown.
  rewrite bool_decide_eq_true_2 by exact Hown. rewrite Hpaused. unfold checked_add.
  rewrite (proj2 (Z.ltb_ge _ _) Hrange). reflexivity.
Qed.

(** The guard of each class, the range of the sum included. *)
Lemma submit_cooldown_active_iff s m b c h1 h2 :
  provider_at s (sender m) = true -> paused s = false ->
  submitContribution s m b c h1 h2 = Err CooldownActive
  <-> lastSubmission_at s (sender m) + cooldownSeconds s < UINT256_MODULUS
      /\ timestamp m < lastSubmission_at s (sender m) + cooldownSeconds s.
Proof.
  intros Hprov Hpaused.
  destruct (Z.lt_ge_cases (lastSubmission_at s (sender m) + cooldownSeconds s)
              UINT256_MODULUS) as [Hin|Hout].
  - rewrite (submit_cooldown_iff s m b c h1 h2 Hprov Hpaused Hin). tauto.
  - rewrite (submit_cooldown_out_of_range s m b c h1 h2 Hprov Hpaused Hout).
    split; [discriminate|lia].
Qed.

Lemma request_cooldown_active_iff s m b r :
  sender m = owner s -> paused s = false ->
  requestBatchScoreDecryption s m b r = Err CooldownActive
  <-> lastDecryptionRequest_at s (sender m) + cooldownSeconds s < UINT256_MODULUS
      /\ timestamp m < lastDecryptionRequest_at s (sender m) + cooldownSeconds s.
Proof.
  intros Hown Hpaused.
  destruct (Z.lt_ge_cases (lastDecryptionRequest_at s (sender m) + cooldownSeconds s)
              UINT256_MODULUS) as [Hin|Hout].
  - rewrite (request_cooldown_iff s m b r Hown Hpaused Hin). tauto.
  - rewrite (request_cooldown_out_of_range s m b r Hown Hpaused Hout).
    split; [discriminate|lia].
Qed.

(** C8 (as the code has it): for every actor and for each of the two action
    classes (submission, guarding [submitContribution]; decryption request,
    guarding [requestBatchScoreDecryption]), once the role and pause gates
    that precede the guard are passed: the call fails with [CooldownActive]
    exactly when [lastActionTime[actor][class] + cooldownSeconds] is in the
    range of [uint256] and [now] is below it; when the sum is out of that
    range the checked addition panics and the call fails with the panic
    instead. A successful call sets that actor's time of that class to
    [now], leaving the other actors' times and the whole other class as they
    were; a failed call leaves every timestamp (the whole state) unchanged. *)
Theorem C8_cooldown_guard (s : State) (m : Msg) :
  paused s = false ->
  (provider_at s (sender m) = true ->
   forall b c h1 h2,
     (submitContribution s m b c h1 h2 = Err CooldownActive
      <-> lastSubmission_at s (sender m) + cooldownSeconds s < UINT256_MODULUS
          /\ timestamp m < lastSubmission_at s (sender m) + cooldownSeconds s)
     /\ (UINT256_MODULUS <= lastSubmission_at s (sender m) + cooldownSeconds s ->
         submitContribution s m b c h1 h2 = Err Panic)
     /\ (forall s', submitContribution s m b c h1 h2 = Ok s' ->
           lastSubmission_at s' (sender m) = timestamp m
           /\ (forall a, a <> sender m -> lastSubmission_at s' a = lastSubmission_at s a)
           /\ lastDecryptionRequestTime s' = lastDecryptionRequestTime s)
     /\ (forall e, submitContribution s m b c h1 h2 = Err e ->
           step s (m, CSubmitContribution b c h1 h2) = s))
  /\ (sender m = owner s ->
      forall b r,
        (requestBatchScoreDecryption s m b r = Err CooldownActive
         <-> lastDecryptionRequest_at s (sender m) + cooldownSeconds s < UINT256_MODULUS
             /\ timestamp m < lastDecryptionRequest_at s (sender m) + cooldownSeconds s)
        /\ (UINT256_MODULUS <= lastDecryptionRequest_at s (sender m) + cooldownSeconds s ->
            requestBatchScoreDecryption s m b r = Err Panic)
        /\ (forall s', requestBatchScoreDecryption s m b r = Ok s' ->
              lastDecryptionRequest_at s' (sender m) = timestamp m
              /\ (forall a, a <> sender m ->
                    lastDecryptionRequest_at s' a = lastDecryptionRequest_at s a)
              /\ lastSubmissionTime s' = lastSubmissionTime s)
        /\ (forall e, requestBatchScoreDecryption s m b r = Err e ->
              step s (m, CRequestBatchScoreDecryption b r) = s)).
Proof.
  intros Hpaused. split.
  - intros Hprov b c h1 h2. split; [|split; [|split]].
    + apply submit_cooldown_active_iff; assumption.
    + apply submit_cooldown_out_of_range; assumption.
    + intros s'. apply submit_records_time.
    + intros e He. apply (step_err _ _ _ e). exact He.
  - intros Hown b r. split; [|split; [|split]].
    + apply request_cooldown_active_iff; assumption.
    + apply request_cooldown_out_of_range; assumption.
    + intros s'. apply request_records_time.
    + intros e He. apply (step_err _ _ _ e). exact He.
Qed.

End Cooldown.

(** ** Replay of the callback *)

Ltac unfold_calls :=
  unfold exec, addProvider, removeProvider, pause, unpause, setCooldownSeconds,
    openBatch, closeBatch, submitContribution, requestBatchScoreDecryption,
    myCallback in *.

(** From [exec s m c = Ok s'] to the state [s'] the call builds, with every
    guard of the call decided in the context. *)
Ltac invert_ok H :=
  unfold_calls; open_call; injection H as <-.

Section Replay.

Context {F : Fhevm}.

Lemma myCallback_processed s m requestId cleartexts proof :
  dc_processed (context_at s requestId) = true ->
  myCallback s m requestId cleartexts proof = Err ReplayDetected.
Proof. intros H. unfold myCallback. rewrite H. reflexivity. Qed.

Lemma myCallback_accepts s m requestId cleartexts proof s1 :
  myCallback s m requestId cleartexts proof = Ok s1 ->
  dc_processed (context_at s requestId) = false
  /\ dc_processed (context_at s1 requestId) = true
  /\ completed_count requestId (events s1) = S (completed_count requestId (events s)).
Proof.
  intros H. invert_ok H. repeat split.
  - unfold context_at. cbn. rewrite lookup_insert_eq. reflexivity.
  - cbn. rewrite Z.eqb_refl. reflexivity.
Qed.

(** Once a request is processed, a transaction that is not a new request
    under the same id keeps it processed and adds no completion event. *)
Lemma step_keeps_processed s tx requestId :
  dc_processed (context_at s requestId) = true ->
  ~ requests_with requestId tx ->
  dc_processed (context_at (step s tx) requestId) = true
  /\ completed_count requestId (events (step s tx))
     = completed_count requestId (events s).
Proof.
  intros Hp Hfresh. destruct tx as [m c]. unfold step. cbn [fst snd].
  destruct (exec s m c) as [s'|e] eqn:E; [|split; [exact Hp|reflexivity]].
  destruct c; invert_ok E; unfold context_at in *; cbn;
    try (split; [exact Hp|reflexivity]).
  - (* a submission does not touch the contexts *)
    unfold _initIfNeeded. destruct (negb (fheInitialized s)); split; auto.
  - (* a request: the oracle's id is another one *)
    unfold requests_with in Hfresh. cbn in Hfresh.
    rewrite lookup_insert_ne by congruence. split; [exact Hp|reflexivity].
  - (* a callback: for this id it reverts, for another it writes elsewhere *)
    destruct (decide (requestId0 = requestId)) as [->|Hne]; [congruence|].
    rewrite lookup_insert_ne by congruence.
    rewrite (proj2 (Z.eqb_neq _ _) Hne). split; [exact Hp|reflexivity].
Qed.

Lemma run_keeps_processed txs : forall s requestId,
  dc_processed (context_at s requestId) = true ->
  oracle_fresh requestId txs ->
  dc_processed (context_at (run s txs) requestId) = true
  /\ completed_count requestId (events (run s txs))
     = completed_count requestId (events s).
Proof.
  induction txs as [|tx txs IH]; intros s requestId Hp Hfresh; [split; auto|].
  apply Forall_cons in Hfresh as [Htx Htxs]. rewrite run_cons.
  destruct (step_keeps_processed s tx requestId Hp Htx) as [Hp' Hc'].
  destruct (IH _ _ Hp' Htxs) as [Hp'' Hc'']. split; [exact Hp''|congruence].
Qed.

(** C3: once a callback for [requestId] has been accepted, the request is
    processed and stays so through every later trace of transactions (the
    oracle handing out each request id once); any further callback for that
    id, with the same or another payload and from any caller, fails with
    [ReplayDetected] and changes nothing; the log holds exactly one more
    [DecryptionCompleted] event for the id than before the accepted call, and
    never gets another. *)
Theorem C3_callback_replay_detected (s : State) (m : Msg) (requestId : uint256)
    (cleartexts proof : bytes) (s1 : State) :
  myCallback s m requestId cleartexts proof = Ok s1 ->
  dc_processed (context_at s requestId) = false
  /\ dc_processed (context_at s1 requestId) = true
  /\ completed_count requestId (events s1) = S (completed_count requestId (events s))
  /\ forall txs, oracle_fresh requestId txs ->
       let s2 := run s1 txs in
       dc_processed (context_at s2 requestId) = true
       /\ completed_count requestId (events s2) = completed_count requestId (events s1)
       /\ forall m' cleartexts' proof',
            myCallback s2 m' requestId cleartexts' proof' = Err ReplayDetected
            /\ step s2 (m', CMyCallback requestId cleartexts' proof') = s2.
Proof.
  intros H. destruct (myCallback_accepts _ _ _ _ _ _ H) as (H0 & H1 & Hc).
  repeat split; try assumption.
  - apply run_keeps_processed; assumption.
  - apply run_keeps_processed; assumption.
  - apply myCallback_processed, run_keeps_processed; assumption.
  - apply (step_err _ _ _ ReplayDetected). cbn [exec].
    apply myCallback_processed, run_keeps_processed; assumption.
Qed.

End Replay.

(** ** The contribution registry *)

Section Registry.

Context {F : Fhevm}.

Lemma initIfNeeded_contributions s : contributions (_initIfNeeded s) = contributions s.
Proof. unfold _initIfNeeded. destruct (negb (fheInitialized s)); reflexivity. Qed.

Lemma initIfNeeded_events s : events (_initIfNeeded s) = events s.
Proof. unfold _initIfNeeded. destruct (negb (fheInitialized s)); reflexivity. Qed.

(** What an accepted submission stores and logs. *)
Lemma submit_stores s m b c h1 h2 s' :
  submitContribution s m b c h1 h2 = Ok s' ->
  sc_exists (contribution_at s c) = false
  /\ contributions s' =
       <[c := {| sc_skillScore := h1; sc_contributionScore := h2;
                 sc_totalScore := FHE_add h1 h2; sc_exists := true |}]> (contributions s)
  /\ events s' = EvContributionSubmitted (sender m) b c :: events s.
Proof.
  intros H. invert_ok H. cbn.
  rewrite initIfNeeded_contributions, initIfNeeded_events. auto.
Qed.

(** A submission under an id that exists never goes through. *)
Lemma submit_duplicate_fails s m b c h1 h2 :
  sc_exists (contribution_at s c) = true ->
  exists e, submitContribution s m b c h1 h2 = Err e.
Proof.
  intros Hex. destruct (submitContribution s m b c h1 h2) as [s'|e] eqn:E; [|eauto].
  apply submit_stores in E as [Hfresh _]. congruence.
Qed.

(** Every call other than an accepted submission leaves the registry and the
    logged submissions as they are. *)
Lemma exec_other_contributions s m c s' :
  exec s m c = Ok s' ->
  (forall b i h1 h2, c <> CSubmitContribution b i h1 h2) ->
  contributions s' = contributions s
  /\ submitted_ids (events s') = submitted_ids (events s).
Proof.
  intros E Hc. destruct c; try (invert_ok E; cbn; split; reflexivity).
  exfalso. eapply Hc. reflexivity.
Qed.

Lemma step_write_once s tx c :
  sc_exists (contribution_at s c) = true ->
  contributions (step s tx) !! c = contributions s !! c.
Proof.
  intros Hex. destruct tx as [m call]. unfold step. cbn [fst snd].
  destruct (exec s m call) as [s'|e] eqn:E; [|reflexivity].
  destruct call as [| | | | | | |b i h1 h2| |];
    try (apply exec_other_contributions in E as [-> _]; [reflexivity|discriminate]).
  cbn [exec] in E. apply submit_stores in E as (Hfresh & -> & _).
  rewrite lookup_insert_ne; [reflexivity|]. intros ->. congruence.
Qed.

Lemma run_write_once txs : forall s c,
  sc_exists (contribution_at s c) = true ->
  contributions (run s txs) !! c = contributions s !! c.
Proof.
  induction txs as [|tx txs IH]; intros s c Hex; [reflexivity|].
  rewrite run_cons. pose proof (step_write_once s tx c Hex) as Hstep.
  rewrite IH, Hstep; [reflexivity|].
  unfold contribution_at. rewrite Hstep. exact Hex.
Qed.

Lemma constructor_ledger_inv m : ledger_inv (constructor m).
Proof.
  unfold ledger_inv, constructor, contribution_at, submitted_ids.
  rewrite initIfNeeded_contributions, initIfNeeded_events. cbn.
  split; [constructor|]. split.
  - intros c. rewrite lookup_empty. cbn. split; [|discriminate].
    intros H. inversion H.
  - intros c r. rewrite lookup_empty. discriminate.
Qed.

Lemma step_ledger_inv s tx : ledger_inv s -> ledger_inv (step s tx).
Proof.
  intros (Hnd & Hiff & Hflag). destruct tx as [m call]. unfold step. cbn [fst snd].
  destruct (exec s m call) as [s'|e] eqn:E; [|repeat split; auto; apply Hiff].
  unfold ledger_inv, contribution_at in *.
  destruct call as [| | | | | | |b i h1 h2| |];
    try (apply exec_other_contributions in E as [-> ->];
         [repeat split; auto; apply Hiff|discriminate]).
  cbn [exec] in E. apply submit_stores in E as (Hfresh & -> & ->).
  unfold contribution_at in Hfresh. cbn [submitted_ids omap list_omap submitted_id].
  fold (submitted_ids (events s)). split; [|split].
  - apply NoDup_cons. split; [|exact Hnd].
    intros Hin. apply Hiff in Hin. congruence.
  - intros c. rewrite elem_of_cons. destruct (decide (c = i)) as [->|Hne].
    + rewrite lookup_insert_eq. cbn. tauto.
    + rewrite lookup_insert_ne by congruence. rewrite <- Hiff. tauto.
  - intros c r. destruct (decide (c = i)) as [->|Hne].
    + rewrite lookup_insert_eq. intros [= <-]. reflexivity.
    + rewrite lookup_insert_ne by congruence. apply Hflag.
Qed.

(** C10: in every state the contract reaches from its construction, by any
    sequence of transactions of any callers, the logged submissions carry
    pairwise distinct contribution ids and are exactly the ids under which a
    record is stored, each stored once with its [exists] flag set; and from
    then on no trace of transactions changes or removes the record stored
    under an id: its three score handles and its flag are what the accepted
    submission wrote. *)
Theorem C10_contributions_unique_and_write_once (m0 : Msg) (txs : list (Msg * Call)) :
  let s := run (constructor m0) txs in
  NoDup (submitted_ids (events s))
  /\ (forall c, c ∈ submitted_ids (events s) <-> sc_exists (contribution_at s c) = true)
  /\ (forall c r, contributions s !! c = Some r -> sc_exists r = true)
  /\ (forall c r txs',
        contributions s !! c = Some r ->
        contributions (run s txs') !! c = Some r).
Proof.
  intros s.
  assert (Hinv : ledger_inv s).
  { apply run_invariant; [intros; apply step_ledger_inv; assumption|].
    apply constructor_ledger_inv. }
  destruct Hinv as (Hnd & Hiff & Hflag). repeat split; try assumption; try apply Hiff.
  intros c r txs' Hc. rewrite run_write_once; [exact Hc|].
  unfold contribution_at. rewrite Hc. cbn. eapply Hflag, Hc.
Qed.

End Registry.

(** ** Duplicate submissions *)

Section Duplicates.

Context {F : Fhevm}.

Lemma submit_duplicate_error s m b c h1 h2 :
  sc_exists (contribution_at s c) = true ->
  provider_at s (sender m) = true -> paused s = false ->
  lastSubmission_at s (sender m) + cooldownSeconds s <= timestamp m ->
  timestamp m < UINT256_MODULUS ->
  0 <= b < batches_length s -> batch_open (batch_at (batches s) b) = true ->
  submitContribution s m b c h1 h2 = Err InvalidArgument.
Proof.
  intros Hex Hprov Hpaused Hcool Hnow Hb Hopen.
  unfold submitContribution, onlyProvider, whenNotPaused, checkSubmissionCooldown.
  rewrite Hprov, Hpaused, checked_add_in_range by lia.
  unfold_result. cbn [negb].
  rewrite (proj2 (Z.ltb_ge _ _)) by lia.
  rewrite (proj2 (Z.leb_gt _ _)) by lia.
  rewrite Hopen, Hex. reflexivity.
Qed.

(** C4 (as the code has it): a submission under a contribution id that
    already exists never succeeds and leaves the whole state unchanged; the
    error is [InvalidArgument] (the contract declares no
    [DuplicateContribution]) once the checks that precede the test pass: the
    caller is a provider, the contract is not paused, the cooldown has
    elapsed, the batch exists and is open. A record is stored only by a
    submission whose id was fresh, and it is the record of that submission. *)
Theorem C4_duplicate_submission_rejected (s : State) (m : Msg)
    (b : Z) (c : bytes32) (h1 h2 : euint32) :
  (sc_exists (contribution_at s c) = true ->
     (exists e, submitContribution s m b c h1 h2 = Err e)
     /\ step s (m, CSubmitContribution b c h1 h2) = s
     /\ (provider_at s (sender m) = true -> paused s = false ->
         lastSubmission_at s (sender m) + cooldownSeconds s <= timestamp m ->
         timestamp m < UINT256_MODULUS ->
         0 <= b < batches_length s -> batch_open (batch_at (batches s) b) = true ->
         submitContribution s m b c h1 h2 = Err InvalidArgument))
  /\ (forall s', submitContribution s m b c h1 h2 = Ok s' ->
        sc_exists (contribution_at s c) = false
        /\ contributions s' =
             <[c := {| sc_skillScore := h1; sc_contributionScore := h2;
                       sc_totalScore := FHE_add h1 h2; sc_exists := true |}]>
               (contributions s)
        /\ events s' = EvContributionSubmitted (sender m) b c :: events s).
Proof.
  split.
  - intros Hex. destruct (submit_duplicate_fails s m b c h1 h2 Hex) as [e He].
    split; [eauto|]. split.
    + apply (step_err _ _ _ e). exact He.
    + intros. apply submit_duplicate_error; assumption.
  - intros s'. apply submit_stores.
Qed.

End Duplicates.

(** ** The callback: unknown requests and callers *)

Section Callback.

Context {F : Fhevm}.

Lemma context_at_unknown s requestId :
  decryptionContexts s !! requestId = None -> context_at s requestId = zero_context.
Proof. unfold context_at. intros ->. reflexivity. Qed.

(** The verdict on the snapshot: with the request unprocessed and a cleartext
    of 32 bytes, the callback fails with [StateMismatch] exactly when the hash
    recomputed from the batch table is not the stored one. *)
Lemma myCallback_state_mismatch_iff s m requestId cleartexts proof :
  dc_processed (context_at s requestId) = false ->
  length cleartexts = 32%nat ->
  myCallback s m requestId cleartexts proof = Err StateMismatch
  <-> _hashCiphertexts (batchCiphertexts s (dc_batchId (context_at s requestId)))
      <> dc_stateHash (context_at s requestId).
Proof.
  intros Hp Hlen. unfold myCallback. rewrite Hp, Hlen. unfold_result. cbn [negb Nat.eqb].
  destruct (_ =? _) eqn:E; cbn [negb].
  - apply Z.eqb_eq in E. split; [|congruence].
    destruct (FHE_checkSignatures _ _ _); discriminate.
  - apply Z.eqb_neq in E. split; [intros _; exact E|reflexivity].
Qed.

(** C5 (as the code has it): the contract keeps no record of which request
    ids exist and declares no [UnknownRequest]; a callback for an id without
    a context meets the zero context. It fails with [DecryptionFailed] when
    the cleartext is not 32 bytes long, and otherwise with [StateMismatch]
    as long as the hash of the aggregate recomputed for batch id 0 is not the
    zero word; a failed callback changes no state. *)
Theorem C5_callback_for_unknown_request (s : State) (m : Msg) (requestId : uint256)
    (cleartexts proof : bytes) :
  decryptionContexts s !! requestId = None ->
  (length cleartexts <> 32%nat ->
     myCallback s m requestId cleartexts proof = Err DecryptionFailed)
  /\ (length cleartexts = 32%nat ->
      _hashCiphertexts (batchCiphertexts s 0) <> 0 ->
      myCallback s m requestId cleartexts proof = Err StateMismatch)
  /\ (forall e, myCallback s m requestId cleartexts proof = Err e ->
        step s (m, CMyCallback requestId cleartexts proof) = s).
Proof.
  intros Hnone. pose proof (context_at_unknown s requestId Hnone) as Hctx.
  split; [|split].
  - intros Hlen. unfold myCallback. rewrite Hctx. cbn [zero_context dc_processed].
    unfold_result. apply Nat.eqb_neq in Hlen. rewrite Hlen. reflexivity.
  - intros Hlen Hhash. apply myCallback_state_mismatch_iff; rewrite ?Hctx; auto.
  - intros e He. apply (step_err _ _ _ e). exact He.
Qed.

(** C7 (as the code has it): the callback is a public entry point that never
    reads its caller: its result is the same for every caller. What it
    demands is the proof: it is accepted only if [FHE.checkSignatures]
    accepts the request id, the cleartext and the proof; when that check
    rejects them the call fails, for every caller, and changes no state (the
    error being [DecryptionFailed] once the earlier checks pass). *)
Theorem C7_callback_gated_by_proof_not_caller (s : State) (m m' : Msg)
    (requestId : uint256) (cleartexts proof : bytes) :
  myCallback s m requestId cleartexts proof = myCallback s m' requestId cleartexts proof
  /\ (forall s', myCallback s m requestId cleartexts proof = Ok s' ->
        FHE_checkSignatures requestId cleartexts proof = true)
  /\ (FHE_checkSignatures requestId cleartexts proof = false ->
      (exists e, myCallback s m requestId cleartexts proof = Err e)
      /\ step s (m, CMyCallback requestId cleartexts proof) = s
      /\ (dc_processed (context_at s requestId) = false ->
          length cleartexts = 32%nat ->
          _hashCiphertexts (batchCiphertexts s (dc_batchId (context_at s requestId)))
            = dc_stateHash (context_at s requestId) ->
          myCallback s m requestId cleartexts proof = Err DecryptionFailed)).
Proof.
  split; [reflexivity|]. split.
  - intros s' H. unfold myCallback in H. open_call. reflexivity.
  - intros Hsig.
    assert (Hfail : exists e, myCallback s m requestId cleartexts proof = Err e).
    { unfold myCallback. rewrite Hsig. open_call; eauto. }
    split; [exact Hfail|]. split.
    + destruct Hfail as [e He]. apply (step_err _ _ _ e). exact He.
    + intros Hp Hlen Hhash. unfold myCallback.
      rewrite Hp, Hlen, Hhash, Z.eqb_refl, Hsig. reflexivity.
Qed.

End Callback.

(** ** The pause gate *)

Section PauseGate.

Context {F : Fhevm}.

(** C6 (as the code has it): while the contract is paused, the calls that
    carry [whenNotPaused], that is [addProvider], [removeProvider],
    [openBatch], [closeBatch], [submitContribution] and
    [requestBatchScoreDecryption], never succeed and never change the state.
    The role check comes first: a caller without the role gets [NotOwner]
    (or [NotProvider] for a submission), a caller with the role gets
    [Paused]. *)
Theorem C6_paused_blocks_gated_calls (s : State) (m : Msg) :
  paused s = true ->
  (forall p, addProvider s m p = Err (owner_gate_error s m))
  /\ (forall p, removeProvider s m p = Err (owner_gate_error s m))
  /\ openBatch s m = Err (owner_gate_error s m)
  /\ (forall b, closeBatch s m b = Err (owner_gate_error s m))
  /\ (forall b r, requestBatchScoreDecryption s m b r = Err (owner_gate_error s m))
  /\ (forall b c h1 h2, submitContribution s m b c h1 h2 = Err (provider_gate_error s m))
  /\ (forall c, pause_gated c = true -> step s (m, c) = s).
Proof.
  intros Hp.
  assert (Hown : forall k : result State,
            (onlyOwner s m;; whenNotPaused s;; k) = Err (owner_gate_error s m)).
  { intros k. unfold onlyOwner, whenNotPaused, owner_gate_error. rewrite Hp.
    unfold_result. destruct (bool_decide (sender m = owner s)); reflexivity. }
  assert (Hprov : forall k : result State,
            (onlyProvider s m;; whenNotPaused s;; k) = Err (provider_gate_error s m)).
  { intros k. unfold onlyProvider, whenNotPaused, provider_gate_error. rewrite Hp.
    unfold_result. destruct (provider_at s (sender m)); reflexivity. }
  repeat split; intros; try apply Hown; try apply Hprov.
  destruct c; try discriminate;
    (eapply step_err; cbn [exec]; first [apply Hown | apply Hprov]).
Qed.

End PauseGate.

(** ** The batch lifecycle *)

Section Batches.

Context {F : Fhevm}.

Lemma batches_write_length bs i b :
  (length bs <= length (batches_write bs i b))%nat.
Proof.
  unfold batches_write. destruct (i <? _).
  - rewrite length_insert. lia.
  - rewrite length_app. cbn. lia.
Qed.

(** Writing a closed batch anywhere, or any batch at the end, keeps a closed
    batch closed. *)
Lemma batches_write_keeps_closed bs i b k :
  0 <= k < Z.of_nat (length bs) ->
  batch_open (batch_at bs k) = false ->
  (batch_open b = false \/ Z.of_nat (length bs) <= i) ->
  batch_open (batch_at (batches_write bs i b) k) = false.
Proof.
  intros Hk Hclosed Hb. unfold batches_write, batch_at in *.
  destruct (i <? Z.of_nat (length bs)) eqn:Hi.
  - apply Z.ltb_lt in Hi. destruct Hb as [Hb|Hb]; [|lia].
    destruct (decide (Z.to_nat i = Z.to_nat k)) as [Heq|Hne].
    + rewrite Heq, list_lookup_insert_eq by lia. exact Hb.
    + rewrite list_lookup_insert_ne by exact Hne. exact Hclosed.
  - rewrite lookup_app_l by lia. exact Hclosed.
Qed.

Lemma exec_batches_length s m c s' :
  exec s m c = Ok s' -> batches_length s <= batches_length s'.
Proof.
  intros E. unfold batches_length.
  destruct c; invert_ok E; cbn; try lia;
    try (apply inj_le, batches_write_length).
  unfold _initIfNeeded. destruct (negb (fheInitialized s)); cbn; lia.
Qed.

Lemma step_batches_length s tx : batches_length s <= batches_length (step s tx).
Proof.
  destruct tx as [m c]. unfold step. cbn [fst snd].
  destruct (exec s m c) eqn:E; [|lia]. eapply exec_batches_length, E.
Qed.

Lemma run_batches_length txs : forall s, batches_length s <= batches_length (run s txs).
Proof.
  induction txs as [|tx txs IH]; intros s; [cbn; lia|].
  rewrite run_cons. pose proof (step_batches_length s tx). specialize (IH (step s tx)). lia.
Qed.

Lemma uint32_small x : 0 <= x < 2 ^ 32 -> uint32 x = x.
Proof. intros H. unfold uint32. apply Z.mod_small. exact H. Qed.

Lemma step_keeps_closed s tx k :
  batches_length s < 2 ^ 32 ->
  0 <= k < batches_length s ->
  batch_open (batch_at (batches s) k) = false ->
  batch_open (batch_at (batches (step s tx)) k) = false.
Proof.
  intros Hlen Hk Hclosed. destruct tx as [m c]. unfold step. cbn [fst snd].
  destruct (exec s m c) as [s'|e] eqn:E; [|exact Hclosed].
  unfold batches_length in *.
  destruct c; invert_ok E; cbn; try exact Hclosed.
  - (* openBatch writes at the length *)
    apply batches_write_keeps_closed; auto. right.
    unfold batches_length. rewrite uint32_small by lia. lia.
  - (* closeBatch writes a closed batch *)
    apply batches_write_keeps_closed; auto.
  - unfold _initIfNeeded. destruct (negb (fheInitialized s)); exact Hclosed.
Qed.

Lemma run_keeps_closed txs : forall s k,
  batches_length (run s txs) < 2 ^ 32 ->
  0 <= k < batches_length s ->
  batch_open (batch_at (batches s) k) = false ->
  batch_open (batch_at (batches (run s txs)) k) = false.
Proof.
  induction txs as [|tx txs IH]; intros s k Hlen Hk Hclosed; [exact Hclosed|].
  rewrite run_cons in *.
  pose proof (run_batches_length txs (step s tx)) as Hmono.
  pose proof (step_batches_length s tx) as Hstep.
  apply IH; [exact Hlen|lia|].
  apply step_keeps_closed; [lia|exact Hk|exact Hclosed].
Qed.


Lemma closeBatch_open s m b :
  sender m = owner s -> paused s = false ->
  0 <= b < batches_length s -> batch_open (batch_at (batches s) b) = true ->
  exists s', closeBatch s m b = Ok s'
    /\ batch_open (batch_at (batches s') b) = false
    /\ batch_id (batch_at (batches s') b) = batch_id (batch_at (batches s) b)
    /\ batches_length s' = batches_length s
    /\ events s' = EvBatchClosed b :: events s.
Proof.
  intros Hown Hpaused Hb Hopen. unfold closeBatch, onlyOwner, whenNotPaused.
  rewrite bool_decide_eq_true_2 by exact Hown. rewrite Hpaused, Hopen.
  unfold_result. cbn [negb]. rewrite (proj2 (Z.leb_gt _ _)) by lia.
  eexists. split; [reflexivity|]. cbn.
  unfold batches_write, batches_length, batch_at in *. cbn.
  rewrite (proj2 (Z.ltb_lt _ _)) by lia.
  rewrite list_lookup_insert_eq by lia. rewrite length_insert. auto.
Qed.

(** C9 (as the code has it): called by the owner while the contract is not
    paused, [closeBatch] fails with [InvalidBatch] when the id is not below
    the number of batches, and with the error [BatchClosed] (the contract
    declares no [AlreadyClosed]) when the batch is not open; otherwise it
    closes that batch, keeping its id, and emits the event [BatchClosed].
    For as long as the number of batches stays below [2^32], the range of the
    batch ids, no trace of transactions brings a closed batch back to open. *)
Theorem C9_closeBatch_lifecycle (s : State) (m : Msg) (_batchId : Z) :
  (sender m = owner s -> paused s = false -> 0 <= _batchId ->
     (batches_length s <= _batchId -> closeBatch s m _batchId = Err InvalidBatch)
     /\ (_batchId < batches_length s ->
         batch_open (batch_at (batches s) _batchId) = false ->
         closeBatch s m _batchId = Err BatchClosed)
     /\ (_batchId < batches_length s ->
         batch_open (batch_at (batches s) _batchId) = true ->
         exists s', closeBatch s m _batchId = Ok s'
           /\ batch_open (batch_at (batches s') _batchId) = false
           /\ batch_id (batch_at (batches s') _batchId)
              = batch_id (batch_at (batches s) _batchId)
           /\ batches_length s' = batches_length s
           /\ events s' = EvBatchClosed _batchId :: events s))
  /\ (forall txs k,
        batches_length (run s txs) < 2 ^ 32 ->
        0 <= k < batches_length s ->
        batch_open (batch_at (batches s) k) = false ->
        batch_open (batch_at (batches (run s txs)) k) = false).
Proof.
  split.
  - intros Hown Hpaused Hb. split; [|split].
    + intros Hge. unfold closeBatch, onlyOwner, whenNotPaused.
      rewrite bool_decide_eq_true_2 by exact Hown. rewrite Hpaused.
      unfold_result. cbn [negb]. rewrite (proj2 (Z.leb_le _ _)) by lia. reflexivity.
    + intros Hlt Hclosed. unfold closeBatch, onlyOwner, whenNotPaused.
      rewrite bool_decide_eq_true_2 by exact Hown. rewrite Hpaused, Hclosed.
      unfold_result. cbn [negb]. rewrite (proj2 (Z.leb_gt _ _)) by lia. reflexivity.
    + intros Hlt Hopen. apply closeBatch_open; auto.
  - intros txs k. apply run_keeps_closed.
Qed.

End Batches.

(** ** What each call writes *)

Section Footprint.

Context {F : Fhevm}.

Lemma initIfNeeded_frame s :
  providers (_initIfNeeded s) = providers s
  /\ batches (_initIfNeeded s) = batches s
  /\ decryptionContexts (_initIfNeeded s) = decryptionContexts s
  /\ lastSubmissionTime (_initIfNeeded s) = lastSubmissionTime s
  /\ lastDecryptionRequestTime (_initIfNeeded s) = lastDecryptionRequestTime s
  /\ owner (_initIfNeeded s) = owner s
  /\ paused (_initIfNeeded s) = paused s
  /\ cooldownSeconds (_initIfNeeded s) = cooldownSeconds s
  /\ fheInitialized (_initIfNeeded s) = true.
Proof.
  unfold _initIfNeeded. destruct (fheInitialized s) eqn:E; cbn; rewrite ?E; tauto.
Qed.

Lemma exec_footprint s m c s' :
  exec s m c = Ok s' ->
  owner s' = owner s
  /\ (writes_providers c = false -> providers s' = providers s)
  /\ (writes_paused c = false -> paused s' = paused s)
  /\ (writes_cooldownSeconds c = false -> cooldownSeconds s' = cooldownSeconds s)
  /\ (writes_batches c = false -> batches s' = batches s)
  /\ (writes_contributions c = false ->
      contributions s' = contributions s
      /\ lastSubmissionTime s' = lastSubmissionTime s
      /\ fheInitialized s' = fheInitialized s)
  /\ (writes_decryptionContexts c = false -> decryptionContexts s' = decryptionContexts s)
  /\ (writes_lastDecryptionRequestTime c = false ->
      lastDecryptionRequestTime s' = lastDecryptionRequestTime s).
Proof.
  intros E. pose proof (initIfNeeded_frame s) as (? & ? & ? & ? & ? & ? & ? & ? & ?).
  destruct c; invert_ok E; cbn; repeat split; auto; discriminate.
Qed.

Lemma step_owner s tx : owner (step s tx) = owner s.
Proof.
  destruct tx as [m c]. unfold step. cbn [fst snd].
  destruct (exec s m c) eqn:E; [|reflexivity]. apply exec_footprint in E. tauto.
Qed.

Lemma exec_event s m c s' :
  exec s m c = Ok s' -> exists e, events s' = e :: events s.
Proof.
  intros E. destruct c; invert_ok E; cbn; rewrite ?initIfNeeded_events; eauto.
Qed.

(** X12: the footprint of every call. A successful call never changes the
    owner, and changes a part of the storage only if it is one of the calls
    that assign it: the provider set is written by [addProvider] and
    [removeProvider] only, the pause flag by [pause] and [unpause], the
    cooldown by [setCooldownSeconds], the batch table by [openBatch] and
    [closeBatch], the registry (with the submission times and the
    initialisation flag) by [submitContribution], the contexts by
    [requestBatchScoreDecryption] and [myCallback], the request times by
    [requestBatchScoreDecryption]. *)
Theorem X12_call_footprint (s : State) (tx : Msg * Call) :
  let s' := step s tx in
  owner s' = owner s
  /\ (writes_providers tx.2 = false -> providers s' = providers s)
  /\ (writes_paused tx.2 = false -> paused s' = paused s)
  /\ (writes_cooldownSeconds tx.2 = false -> cooldownSeconds s' = cooldownSeconds s)
  /\ (writes_batches tx.2 = false -> batches s' = batches s)
  /\ (writes_contributions tx.2 = false ->
      contributions s' = contributions s
      /\ lastSubmissionTime s' = lastSubmissionTime s
      /\ fheInitialized s' = fheInitialized s)
  /\ (writes_decryptionContexts tx.2 = false -> decryptionContexts s' = decryptionContexts s)
  /\ (writes_lastDecryptionRequestTime tx.2 = false ->
      lastDecryptionRequestTime s' = lastDecryptionRequestTime s).
Proof.
  destruct tx as [m c]. unfold step. cbn [fst snd].
  destruct (exec s m c) as [s'|e] eqn:E.
  - exact (exec_footprint _ _ _ _ E).
  - repeat split; reflexivity.
Qed.

(** X14: the owner set by the constructor is the owner for ever: no trace of
    transactions changes it. *)
Theorem X14_owner_never_changes (m0 : Msg) (txs : list (Msg * Call)) :
  owner (run (constructor m0) txs) = sender m0.
Proof.
  apply (run_invariant (fun s => owner s = sender m0)).
  - intros s tx Hs. rewrite step_owner. exact Hs.
  - unfold constructor. destruct (initIfNeeded_frame
      {| providers := ∅; batches := []; contributions := ∅; decryptionContexts := ∅;
         lastSubmissionTime := ∅; lastDecryptionRequestTime := ∅;
         owner := sender m0; paused := false; cooldownSeconds := 60;
         fheInitialized := false; events := [] |}) as (_&_&_&_&_&H&_). exact H.
Qed.

(** X13: the log is append-only. A transaction puts exactly one event in
    front of the log when its call is accepted and none when it reverts: after
    a trace the old log is still there, below as many new events as the trace
    has accepted transactions. *)
Theorem X13_log_append_only (s : State) (txs : list (Msg * Call)) :
  exists new, events (run s txs) = new ++ events s
              /\ length new = accepted s txs.
Proof.
  revert s. induction txs as [|tx txs IH]; intros s.
  - exists []. split; reflexivity.
  - rewrite run_cons. destruct (IH (step s tx)) as (new & Hnew & Hlen).
    cbn [accepted]. destruct tx as [m c]. unfold step in *. cbn [fst snd] in *.
    destruct (exec s m c) as [s'|e] eqn:E.
    + destruct (exec_event _ _ _ _ E) as [ev Hev].
      exists (new ++ [ev]). rewrite Hnew, Hev, <- app_assoc. split; [reflexivity|].
      rewrite length_app. cbn. lia.
    + exists new. split; [exact Hnew|]. lia.
Qed.

End Footprint.

(** ** The states the contract reaches *)

Section Reachable.

Context {F : Fhevm}.

(** Decide the comparisons of the goal and leave the arithmetic to [lia]. *)
Ltac case_bounds :=
  repeat match goal with
    | |- context [?a <=? ?b] => destruct (Z.leb_spec a b)
    | |- context [?a <? ?b] => destruct (Z.ltb_spec a b)
    end; cbn [andb]; lia.

Lemma filter_ids_from (bs : list Batch) (target off : Z) :
  (forall (i : nat) b, bs !! i = Some b -> batch_id b = off + Z.of_nat i) ->
  Z.of_nat (length (filter (fun b => batch_id b = target) bs))
  = if (off <=? target) && (target <? off + Z.of_nat (length bs)) then 1 else 0.
Proof.
  revert off. induction bs as [|b bs IH]; intros off Hids.
  - cbn [length filter list_filter]. case_bounds.
  - rewrite filter_cons.
    assert (Hb : batch_id b = off) by (rewrite (Hids 0%nat b eq_refl); cbn; lia).
    assert (Htl : forall (i : nat) x, bs !! i = Some x -> batch_id x = (off + 1) + Z.of_nat i).
    { intros i x Hx. rewrite (Hids (S i) x Hx). lia. }
    specialize (IH (off + 1) Htl).
    destruct (decide (batch_id b = target)) as [Heq|Hne]; cbn [length];
      rewrite ?Nat2Z.inj_succ, IH; case_bounds.
Qed.

(** With sequential ids the aggregate is the encryption of 1 for a batch of
    the table and of 0 for any other id. *)
Lemma batchCiphertexts_sequential s batchId :
  batch_table_inv (batches s) ->
  batchCiphertexts s batchId =
    [FHE_toBytes32
       (FHE_asEuint32 (if (0 <=? batchId) && (batchId <? batches_length s) then 1 else 0))].
Proof.
  intros [Hlen Hids]. unfold batchCiphertexts, batches_length.
  rewrite sum_loop_count. cbn zeta. rewrite (count_loop_matching _ _ Hlen).
  rewrite (filter_ids_from (batches s) batchId 0) by (intros i b Hb; rewrite (Hids i b Hb); lia).
  rewrite Z.add_0_l.
  destruct ((0 <=? batchId) && (batchId <? Z.of_nat (length (batches s)))); reflexivity.
Qed.

Lemma batches_write_inv_open bs :
  batch_table_inv bs ->
  batch_table_inv
    (batches_write bs (uint32 (Z.of_nat (length bs)))
       {| batch_id := uint32 (Z.of_nat (length bs)); batch_open := true |}).
Proof.
  intros [Hlen Hids]. unfold batch_table_inv, batches_write.
  destruct (decide (Z.of_nat (length bs) = 2 ^ 32)) as [Hfull|Hroom].
  - rewrite Hfull. change (uint32 (2 ^ 32)) with 0. rewrite (proj2 (Z.ltb_lt _ _)) by lia.
    rewrite length_insert. split; [lia|]. intros i b.
    destruct (decide (i = Z.to_nat 0)) as [->|Hne].
    + rewrite list_lookup_insert_eq by lia. intros [= <-]. reflexivity.
    + rewrite list_lookup_insert_ne by congruence. apply Hids.
  - rewrite uint32_small by lia. rewrite Z.ltb_irrefl, length_app. cbn [length].
    split; [lia|]. intros i b Hb. apply lookup_app_Some in Hb as [Hb|[Hi Hb]].
    + apply Hids, Hb.
    + apply list_lookup_singleton_Some in Hb as [Hi' <-]. cbn. lia.
Qed.

Lemma batches_write_inv_close bs i :
  batch_table_inv bs -> i < Z.of_nat (length bs) ->
  batch_open (batch_at bs i) = true ->
  batch_table_inv
    (batches_write bs i {| batch_id := batch_id (batch_at bs i); batch_open := false |})
  /\ length (batches_write bs i
               {| batch_id := batch_id (batch_at bs i); batch_open := false |}) = length bs.
Proof.
  intros [Hlen Hids] Hi Hopen. unfold batch_table_inv, batches_write.
  rewrite (proj2 (Z.ltb_lt _ _)) by lia. rewrite length_insert.
  split; [|reflexivity]. split; [exact Hlen|]. intros j b.
  unfold batch_at in *. destruct (bs !! Z.to_nat i) as [x|] eqn:Hx; [|discriminate Hopen].
  cbn [default]. destruct (decide (j = Z.to_nat i)) as [->|Hne].
  - rewrite list_lookup_insert_eq by (apply lookup_lt_Some in Hx; lia).
    intros [= <-]. cbn. apply Hids, Hx.
  - rewrite list_lookup_insert_ne by congruence. apply Hids.
Qed.

Lemma constructor_reachable_inv m : reachable_inv (constructor m).
Proof.
  unfold reachable_inv, batch_table_inv, contexts_anchored, constructor.
  match goal with |- context [_initIfNeeded ?s0] =>
    pose proof (initIfNeeded_frame s0) as (_ & -> & -> & _ & _ & _ & _ & -> & ->) end.
  cbn. repeat split; try discriminate; try lia.
  all: intros;
    match goal with
    | H : _ !! _ = Some _ |- _ =>
        first [rewrite lookup_empty in H | rewrite lookup_nil in H]; discriminate H
    end.
Qed.

(** The anchoring survives a change of the batch table that keeps the
    invariant and does not shorten the table. *)
Lemma contexts_anchored_batches s s' :
  batch_table_inv (batches s) -> batch_table_inv (batches s') ->
  batches_length s <= batches_length s' ->
  decryptionContexts s' = decryptionContexts s ->
  contexts_anchored s -> contexts_anchored s'.
Proof.
  intros Hinv Hinv' Hlen Hctx Hanch requestId ctx Hlook Hp. rewrite Hctx in Hlook.
  destruct (Hanch _ _ Hlook Hp) as [Hb Hh]. split; [lia|].
  rewrite Hh, (batchCiphertexts_sequential s _ Hinv), (batchCiphertexts_sequential s' _ Hinv').
  destruct (0 <=? dc_batchId ctx) eqn:E; cbn [andb]; [|reflexivity].
  rewrite (proj2 (Z.ltb_lt _ _) Hb), (proj2 (Z.ltb_lt _ _)) by lia. reflexivity.
Qed.

Lemma batchCiphertexts_same_batches s s' batchId :
  batches s' = batches s -> batchCiphertexts s' batchId = batchCiphertexts s batchId.
Proof. unfold batchCiphertexts. intros ->. reflexivity. Qed.

Lemma exec_batch_table_inv s m c s' :
  exec s m c = Ok s' -> batch_table_inv (batches s) -> batch_table_inv (batches s').
Proof.
  intros E Hbt. destruct (writes_batches c) eqn:W.
  - destruct c; try discriminate W; invert_ok E; cbn.
    + apply batches_write_inv_open, Hbt.
    + apply batches_write_inv_close; auto.
      * apply Z.leb_gt. assumption.
      * apply negb_false_iff. assumption.
  - pose proof (exec_footprint _ _ _ _ E) as (_ & _ & _ & _ & Hba & _).
    rewrite (Hba W). exact Hbt.
Qed.

Lemma exec_initialized s m c s' :
  exec s m c = Ok s' -> fheInitialized s = true -> fheInitialized s' = true.
Proof.
  intros E Hinit. destruct (writes_contributions c) eqn:W.
  - destruct c; try discriminate W. invert_ok E. cbn. apply initIfNeeded_frame.
  - pose proof (exec_footprint _ _ _ _ E) as (_ & _ & _ & _ & _ & Hco & _).
    destruct (Hco W) as (_ & _ & ->). exact Hinit.
Qed.

Lemma exec_cooldown_nonzero s m c s' :
  exec s m c = Ok s' -> cooldownSeconds s <> 0 -> cooldownSeconds s' <> 0.
Proof.
  intros E Hcd. destruct (writes_cooldownSeconds c) eqn:W.
  - destruct c; try discriminate W. invert_ok E. cbn. apply Z.eqb_neq. assumption.
  - pose proof (exec_footprint _ _ _ _ E) as (_ & _ & _ & Hcs & _).
    rewrite (Hcs W). exact Hcd.
Qed.

Lemma exec_contexts_anchored s m c s' :
  exec s m c = Ok s' -> batch_table_inv (batches s) ->
  contexts_anchored s -> contexts_anchored s'.
Proof.
  intros E Hbt Hanch.
  pose proof (exec_batch_table_inv _ _ _ _ E Hbt) as Hbt'.
  pose proof (exec_batches_length _ _ _ _ E) as Hlen.
  pose proof (exec_footprint _ _ _ _ E) as (_ & _ & _ & _ & Hba & _ & Hdc & _).
  destruct (writes_decryptionContexts c) eqn:W.
  - assert (Hsame : batches s' = batches s) by (destruct c; try discriminate W; auto).
    intros rid ctx Hlook Hp. unfold batches_length.
    rewrite (batchCiphertexts_same_batches _ _ _ Hsame), Hsame.
    destruct c; try discriminate W.
    + (* a request *)
      destruct (decide (rid = requestId)) as [->|Hne].
      * pose proof (request_context _ _ _ _ _ E) as Hctx. unfold context_at in Hctx.
        rewrite Hlook in Hctx. cbn in Hctx. subst ctx. cbn. split; [|reflexivity].
        invert_ok E. apply Z.leb_gt. assumption.
      * refine (Hanch rid ctx _ Hp). invert_ok E. cbn in Hlook.
        rewrite lookup_insert_ne in Hlook by congruence. exact Hlook.
    + (* a callback *)
      destruct (decide (rid = requestId)) as [->|Hne].
      * exfalso. invert_ok E. cbn in Hlook. rewrite lookup_insert_eq in Hlook.
        injection Hlook as <-. discriminate Hp.
      * refine (Hanch rid ctx _ Hp). invert_ok E. cbn in Hlook.
        rewrite lookup_insert_ne in Hlook by congruence. exact Hlook.
  - exact (contexts_anchored_batches s s' Hbt Hbt' Hlen (Hdc eq_refl) Hanch).
Qed.

Lemma step_reachable_inv s tx : reachable_inv s -> reachable_inv (step s tx).
Proof.
  intros (Hbt & Hinit & Hcd & Hanch). destruct tx as [m c]. unfold step. cbn [fst snd].
  destruct (exec s m c) as [s'|e] eqn:E;
    [|exact (conj Hbt (conj Hinit (conj Hcd Hanch)))].
  split; [eapply exec_batch_table_inv; eauto|].
  split; [eapply exec_initialized; eauto|].
  split; [eapply exec_cooldown_nonzero; eauto|].
  eapply exec_contexts_anchored; eauto.
Qed.

Lemma run_reachable_inv m0 txs : reachable_inv (run (constructor m0) txs).
Proof.
  apply run_invariant; [intros; apply step_reachable_inv; assumption|].
  apply constructor_reachable_inv.
Qed.

End Reachable.

Section ReachableFacts.

Context {F : Fhevm}.

(** X1: batch ids are sequential. In every state the contract reaches, the
    batch table has at most [2^32] entries and the batch at index [i] carries
    the id [i]: ids are unique and are never reassigned. *)
Theorem X1_batch_ids_sequential (m0 : Msg) (txs : list (Msg * Call)) :
  let s := run (constructor m0) txs in
  batches_length s <= 2 ^ 32
  /\ (forall (i : nat) b, batches s !! i = Some b -> batch_id b = Z.of_nat i)
  /\ (forall i j, 0 <= i < batches_length s -> 0 <= j < batches_length s ->
        batch_id (batch_at (batches s) i) = batch_id (batch_at (batches s) j) -> i = j).
Proof.
  intros s. destruct (run_reachable_inv m0 txs) as ([Hlen Hids] & _).
  fold s in Hlen, Hids. split; [exact Hlen|]. split; [exact Hids|].
  intros i j Hi Hj. unfold batch_at, batches_length in *.
  destruct (lookup_lt_is_Some_2 (batches s) (Z.to_nat i) ltac:(lia)) as [bi Hbi].
  destruct (lookup_lt_is_Some_2 (batches s) (Z.to_nat j) ltac:(lia)) as [bj Hbj].
  rewrite Hbi, Hbj. cbn. rewrite (Hids _ _ Hbi), (Hids _ _ Hbj). lia.
Qed.

(** X2: in every state the contract reaches, the ciphertext array built for
    a batch id is the encryption of the constant 1 when the id is that of a
    batch of the table, and of 0 otherwise: all batches share one snapshot
    hash, whatever was submitted into them. *)
Theorem X2_snapshot_is_constant (m0 : Msg) (txs : list (Msg * Call)) (batchId : Z) :
  let s := run (constructor m0) txs in
  batchCiphertexts s batchId =
    [FHE_toBytes32
       (FHE_asEuint32 (if (0 <=? batchId) && (batchId <? batches_length s) then 1 else 0))]
  /\ (forall b1 b2, 0 <= b1 < batches_length s -> 0 <= b2 < batches_length s ->
        _hashCiphertexts (batchCiphertexts s b1) = _hashCiphertexts (batchCiphertexts s b2)).
Proof.
  intros s. destruct (run_reachable_inv m0 txs) as (Hbt & _). fold s in Hbt.
  split; [apply batchCiphertexts_sequential, Hbt|].
  intros b1 b2 H1 H2. rewrite !(batchCiphertexts_sequential s _ Hbt).
  rewrite !(proj2 (Z.leb_le _ _)), !(proj2 (Z.ltb_lt _ _)) by lia. reflexivity.
Qed.

(** X3: in every state the contract reaches, the hash comparison of the
    callback never rejects a stored request: whatever happened since the
    request, [myCallback] never fails with [StateMismatch] for a request id
    that has a context; if the context is unprocessed and the cleartext has 32
    bytes, the callback is accepted when the proof verifies and fails with
    [DecryptionFailed] when it does not. *)
Theorem X3_stored_request_never_mismatches (m0 : Msg) (txs : list (Msg * Call))
    (requestId : uint256) (ctx : DecryptionContext)
    (m : Msg) (cleartexts proof : bytes) :
  let s := run (constructor m0) txs in
  decryptionContexts s !! requestId = Some ctx ->
  myCallback s m requestId cleartexts proof <> Err StateMismatch
  /\ (dc_processed ctx = false -> length cleartexts = 32%nat ->
      (FHE_checkSignatures requestId cleartexts proof = true ->
         exists s', myCallback s m requestId cleartexts proof = Ok s')
      /\ (FHE_checkSignatures requestId cleartexts proof = false ->
            myCallback s m requestId cleartexts proof = Err DecryptionFailed)).
Proof.
  intros s Hlook. destruct (run_reachable_inv m0 txs) as (_ & _ & _ & Hanch).
  fold s in Hanch. specialize (Hanch _ _ Hlook).
  assert (Hctx : context_at s requestId = ctx) by (unfold context_at; rewrite Hlook; reflexivity).
  unfold myCallback. rewrite Hctx. destruct (dc_processed ctx) eqn:Hp.
  - split; [discriminate|]. intros; discriminate.
  - destruct (Hanch eq_refl) as [_ Hh]. rewrite Hh, Z.eqb_refl. unfold_result. cbn [negb].
    split.
    + destruct (negb (length cleartexts =? 32)%nat); [discriminate|].
      destruct (FHE_checkSignatures _ _ _); discriminate.
    + intros _ ->. cbn. split; intros ->; eauto.
Qed.

(** X15: in every state the contract reaches the FHE library is initialised,
    so a decryption request never fails with [InvalidState]. *)
Theorem X15_request_never_invalid_state (m0 : Msg) (txs : list (Msg * Call))
    (m : Msg) (batchId : Z) (requestId : uint256) :
  let s := run (constructor m0) txs in
  fheInitialized s = true
  /\ requestBatchScoreDecryption s m batchId requestId <> Err InvalidState.
Proof.
  intros s. destruct (run_reachable_inv m0 txs) as (_ & Hinit & _). fold s in Hinit.
  split; [exact Hinit|]. unfold requestBatchScoreDecryption, _requireInitialized.
  rewrite Hinit. open_call; discriminate.
Qed.

(** X16: the cooldown is never zero: the constructor sets 60 and
    [setCooldownSeconds] refuses 0, so in every state the contract reaches
    [cooldownSeconds] differs from 0. *)
Theorem X16_cooldown_never_zero (m0 : Msg) (txs : list (Msg * Call)) :
  cooldownSeconds (run (constructor m0) txs) <> 0.
Proof. destruct (run_reachable_inv m0 txs) as (_ & _ & H & _). exact H. Qed.

End ReachableFacts.

(** ** Outcome tables of the calls *)

(** Turn the decided guards of the context into propositions. *)
Ltac guards_to_props :=
  repeat match goal with
    | H : negb _ = true |- _ => apply negb_true_iff in H
    | H : negb _ = false |- _ => apply negb_false_iff in H
    | H : (_ <? _) = true |- _ => apply Z.ltb_lt in H
    | H : (_ <? _) = false |- _ => apply Z.ltb_ge in H
    | H : (_ <=? _) = true |- _ => apply Z.leb_le in H
    | H : (_ <=? _) = false |- _ => apply Z.leb_gt in H
    | H : (_ =? _) = true |- _ => apply Z.eqb_eq in H
    | H : (_ =? _) = false |- _ => apply Z.eqb_neq in H
    | H : (_ =? _)%nat = true |- _ => apply Nat.eqb_eq in H
    | H : (_ =? _)%nat = false |- _ => apply Nat.eqb_neq in H
    | H : bool_decide _ = true |- _ => apply bool_decide_eq_true_1 in H
    | H : bool_decide _ = false |- _ => apply bool_decide_eq_false_1 in H
    end.

(** Settle a table row once every guard is decided. *)
Ltac table_row :=
  guards_to_props;
  repeat match goal with
    | |- _ /\ _ => split
    | |- _ <-> _ => split
    end;
  intros;
  repeat match goal with
    | H : _ /\ _ |- _ => destruct H
    | H : _ \/ _ |- _ => destruct H
    | H : exists _, _ |- _ => destruct H
    end;
  first [ discriminate | congruence | lia | tauto
        | eexists; reflexivity
        | (left; first [congruence | lia | tauto])
        | (right; first [congruence | lia | tauto]) ].

Section Outcomes.

Context {F : Fhevm}.

(** X8: when [submitContribution] is accepted and which error it gives. The
    checks run in the order provider, pause, cooldown, batch exists, batch
    open, id fresh; the call is accepted exactly when all pass, and each
    error is returned exactly when the checks before it pass and its own
    fails. *)
Theorem X8_submit_outcome (s : State) (m : Msg) (b : Z) (c : bytes32) (h1 h2 : euint32) :
  let r := submitContribution s m b c h1 h2 in
  let due := lastSubmission_at s (sender m) + cooldownSeconds s in
  let gates := provider_at s (sender m) = true /\ paused s = false
               /\ due < UINT256_MODULUS /\ due <= timestamp m in
  ((exists s', r = Ok s') <->
     gates /\ b < batches_length s /\ batch_open (batch_at (batches s) b) = true
     /\ sc_exists (contribution_at s c) = false)
  /\ (r = Err NotProvider <-> provider_at s (sender m) = false)
  /\ (r = Err Paused <-> provider_at s (sender m) = true /\ paused s = true)
  /\ (r = Err Panic <->
        provider_at s (sender m) = true /\ paused s = false /\ UINT256_MODULUS <= due)
  /\ (r = Err CooldownActive <->
        provider_at s (sender m) = true /\ paused s = false
        /\ due < UINT256_MODULUS /\ timestamp m < due)
  /\ (r = Err InvalidBatch <-> gates /\ batches_length s <= b)
  /\ (r = Err BatchClosed <->
        gates /\ b < batches_length s /\ batch_open (batch_at (batches s) b) = false)
  /\ (r = Err InvalidArgument <->
        gates /\ b < batches_length s /\ batch_open (batch_at (batches s) b) = true
        /\ sc_exists (contribution_at s c) = true).
Proof.
  cbn zeta. unfold submitContribution. unfold_modifiers. unfold_result.
  destruct (provider_at s (sender m)) eqn:Hprov, (paused s) eqn:Hpaused; cbn [negb];
    case_guards; table_row.
Qed.

(** X9: when [requestBatchScoreDecryption] is accepted, which error it gives
    and what it stores. The owner's request is accepted exactly when the
    contract is not paused, the cooldown has elapsed, the batch exists and is
    closed, and the library is initialised; an unknown batch and a batch that
    is still open both give [InvalidBatch]. An accepted request stores the
    context (batch id, hash of the ciphertext array, unprocessed) under the
    oracle's id and leaves the other contexts as they are. *)
Theorem X9_request_outcome (s : State) (m : Msg) (b : Z) (requestId : uint256) :
  let r := requestBatchScoreDecryption s m b requestId in
  let due := lastDecryptionRequest_at s (sender m) + cooldownSeconds s in
  let gates := sender m = owner s /\ paused s = false
               /\ due < UINT256_MODULUS /\ due <= timestamp m in
  ((exists s', r = Ok s') <->
     gates /\ b < batches_length s /\ batch_open (batch_at (batches s) b) = false
     /\ fheInitialized s = true)
  /\ (r = Err NotOwner <-> sender m <> owner s)
  /\ (r = Err Paused <-> sender m = owner s /\ paused s = true)
  /\ (r = Err InvalidBatch <->
        gates /\ (batches_length s <= b \/ batch_open (batch_at (batches s) b) = true))
  /\ (r = Err InvalidState <->
        gates /\ b < batches_length s /\ batch_open (batch_at (batches s) b) = false
        /\ fheInitialized s = false)
  /\ (forall s', r = Ok s' ->
        decryptionContexts s' =
          <[requestId := {| dc_batchId := b;
                            dc_stateHash := _hashCiphertexts (batchCiphertexts s b);
                            dc_processed := false |}]> (decryptionContexts s)
        /\ events s' = EvDecryptionRequested requestId b :: events s).
Proof.
  cbn zeta. split; [|split; [|split; [|split; [|split]]]].
  6: { intros s' H. invert_ok H. cbn. split; reflexivity. }
  all: unfold requestBatchScoreDecryption; unfold_modifiers; unfold_result;
    destruct (bool_decide (sender m = owner s)) eqn:Hown, (paused s) eqn:Hpaused,
      (fheInitialized s) eqn:Hinit; cbn [negb];
    case_guards; table_row.
Qed.

(** X10: when [myCallback] is accepted, which error it gives and what it
    changes. It is accepted exactly when the request is unprocessed, the
    cleartext has 32 bytes, the recomputed hash is the stored one and the
    proof verifies; [ReplayDetected] takes precedence over everything,
    [DecryptionFailed] covers both the wrong length and the rejected proof.
    An accepted callback sets the processed flag of that context, keeping its
    batch id and hash, logs [DecryptionCompleted] with the decoded cleartext,
    and changes nothing else. *)
Theorem X10_callback_outcome (s : State) (m : Msg) (requestId : uint256)
    (cleartexts proof : bytes) :
  let r := myCallback s m requestId cleartexts proof in
  let ctx := context_at s requestId in
  let fresh := dc_processed ctx = false in
  let matches := _hashCiphertexts (batchCiphertexts s (dc_batchId ctx)) = dc_stateHash ctx in
  ((exists s', r = Ok s') <->
     fresh /\ length cleartexts = 32%nat /\ matches
     /\ FHE_checkSignatures requestId cleartexts proof = true)
  /\ (r = Err ReplayDetected <-> dc_processed ctx = true)
  /\ (r = Err DecryptionFailed <->
        fresh /\ (length cleartexts <> 32%nat
                  \/ (matches /\ FHE_checkSignatures requestId cleartexts proof = false)))
  /\ (r = Err StateMismatch <-> fresh /\ length cleartexts = 32%nat /\ ~ matches)
  /\ (forall s', r = Ok s' ->
        decryptionContexts s' =
          <[requestId := {| dc_batchId := dc_batchId ctx; dc_stateHash := dc_stateHash ctx;
                            dc_processed := true |}]> (decryptionContexts s)
        /\ events s' =
             EvDecryptionCompleted requestId (dc_batchId ctx)
               (abi_decode_uint256 cleartexts) :: events s
        /\ providers s' = providers s /\ batches s' = batches s
        /\ contributions s' = contributions s /\ paused s' = paused s
        /\ cooldownSeconds s' = cooldownSeconds s
        /\ lastSubmissionTime s' = lastSubmissionTime s
        /\ lastDecryptionRequestTime s' = lastDecryptionRequestTime s).
Proof.
  cbn zeta. split; [|split; [|split; [|split]]].
  5: { intros s' H. invert_ok H. cbn. repeat split; reflexivity. }
  all: unfold myCallback; unfold_result;
    destruct (dc_processed (context_at s requestId)) eqn:Hp;
    destruct (FHE_checkSignatures requestId cleartexts proof) eqn:Hsig; cbn [negb];
    case_guards; table_row.
Qed.

End Outcomes.

(** ** Roles, pause and configuration *)

Section Roles.

Context {F : Fhevm}.

Lemma owner_only_not_owner s m c :
  sender m <> owner s -> owner_only c = true -> exec s m c = Err NotOwner.
Proof.
  intros Hne Hc. destruct c; try discriminate Hc; cbn [exec];
    unfold addProvider, removeProvider, pause, unpause, setCooldownSeconds, openBatch,
      closeBatch, requestBatchScoreDecryption, onlyOwner;
    rewrite bool_decide_eq_false_2 by exact Hne; reflexivity.
Qed.

(** X11: who may call what. A caller other than the owner gets [NotOwner] from
    every call but [submitContribution] and [myCallback], paused or not and
    whatever the arguments; a caller that is not a provider gets [NotProvider]
    from [submitContribution]. So a caller that is neither the owner nor a
    provider changes the state through no call but the callback. *)
Theorem X11_roles_gate_every_call (s : State) (m : Msg) :
  (sender m <> owner s ->
     forall c, owner_only c = true -> exec s m c = Err NotOwner)
  /\ (provider_at s (sender m) = false ->
      forall b c h1 h2, submitContribution s m b c h1 h2 = Err NotProvider)
  /\ (sender m <> owner s -> provider_at s (sender m) = false ->
      forall c, (forall r ct pf, c <> CMyCallback r ct pf) -> step s (m, c) = s).
Proof.
  split; [|split].
  - intros Hne c Hc. apply owner_only_not_owner; assumption.
  - intros Hprov b c h1 h2. unfold submitContribution, onlyProvider. rewrite Hprov.
    reflexivity.
  - intros Hne Hprov c Hc. destruct (owner_only c) eqn:Ho.
    + apply (step_err _ _ _ NotOwner), owner_only_not_owner; assumption.
    + destruct c; try discriminate Ho.
      * apply (step_err _ _ _ NotProvider). cbn [exec].
        unfold submitContribution, onlyProvider. rewrite Hprov. reflexivity.
      * exfalso. eapply Hc. reflexivity.
Qed.

Lemma addProvider_inv s m p s1 :
  addProvider s m p = Ok s1 ->
  providers s1 = <[p := true]> (providers s)
  /\ sender m = owner s /\ paused s = false.
Proof. intros H. invert_ok H. guards_to_props. cbn. auto. Qed.

Lemma removeProvider_inv s m p s1 :
  removeProvider s m p = Ok s1 ->
  providers s1 = <[p := false]> (providers s)
  /\ sender m = owner s /\ paused s = false.
Proof. intros H. invert_ok H. guards_to_props. cbn. auto. Qed.

(** X17: the provider set. [addProvider] makes the address a provider and
    [removeProvider] makes it none, both leaving every other address as it
    was; adding a provider twice gives the provider set of adding it once; a
    removed provider's submissions fail with [NotProvider]. *)
Theorem X17_provider_membership (s : State) (m : Msg) (p : address) (s1 : State) :
  (addProvider s m p = Ok s1 ->
     provider_at s1 p = true
     /\ (forall q, q <> p -> provider_at s1 q = provider_at s q)
     /\ (forall m' s2, addProvider s1 m' p = Ok s2 -> providers s2 = providers s1))
  /\ (removeProvider s m p = Ok s1 ->
      provider_at s1 p = false
      /\ (forall q, q <> p -> provider_at s1 q = provider_at s q)
      /\ (forall m' b c h1 h2, sender m' = p ->
            submitContribution s1 m' b c h1 h2 = Err NotProvider)).
Proof.
  split; intros H.
  - apply addProvider_inv in H as (Hp & _). unfold provider_at. rewrite Hp.
    split; [|split].
    + rewrite lookup_insert_eq. reflexivity.
    + intros q Hq. rewrite lookup_insert_ne by congruence. reflexivity.
    + intros m' s2 H2. apply addProvider_inv in H2 as (-> & _). rewrite Hp.
      apply insert_insert_eq.
  - apply removeProvider_inv in H as (Hp & _). unfold provider_at. rewrite Hp.
    split; [|split].
    + rewrite lookup_insert_eq. reflexivity.
    + intros q Hq. rewrite lookup_insert_ne by congruence. reflexivity.
    + intros m' b c h1 h2 <-. unfold submitContribution, onlyProvider, provider_at.
      rewrite Hp, lookup_insert_eq. reflexivity.
Qed.

(** X18: pausing and lifting the pause. After an accepted [pause] the flag is
    set, and the owner's [unpause] is always accepted; it clears the flag and
    restores every part of the storage to what it was before the pause, the
    log alone keeping the two events. *)
Theorem X18_pause_unpause_round_trip (s : State) (m : Msg) (s1 : State) :
  pause s m = Ok s1 ->
  paused s1 = true
  /\ forall m', sender m' = owner s ->
       exists s2, unpause s1 m' = Ok s2
         /\ paused s2 = false
         /\ providers s2 = providers s /\ batches s2 = batches s
         /\ contributions s2 = contributions s
         /\ decryptionContexts s2 = decryptionContexts s
         /\ lastSubmissionTime s2 = lastSubmissionTime s
         /\ lastDecryptionRequestTime s2 = lastDecryptionRequestTime s
         /\ owner s2 = owner s /\ cooldownSeconds s2 = cooldownSeconds s
         /\ fheInitialized s2 = fheInitialized s
         /\ events s2 = EvUnpaused (sender m') :: EvPaused (sender m) :: events s.
Proof.
  intros H. invert_ok H. cbn. split; [reflexivity|]. intros m' Hown.
  unfold unpause, onlyOwner. cbn. rewrite bool_decide_eq_true_2 by exact Hown.
  eexists. split; [reflexivity|]. cbn. repeat split; reflexivity.
Qed.

(** X19: [setCooldownSeconds] and the guard. The owner's call is refused with
    [InvalidArgument] for 0 and accepted for every other value, paused or
    not; from then on the submission guard counts with the new value: a
    provider's submission is refused with [CooldownActive] exactly when
    [now < lastSubmissionTime + newValue] (the contract not being paused and
    the sum in range). *)
Theorem X19_setCooldown_takes_effect (s : State) (m : Msg) (n : uint256) :
  sender m = owner s ->
  (n = 0 -> setCooldownSeconds s m n = Err InvalidArgument)
  /\ (n <> 0 ->
      exists s1, setCooldownSeconds s m n = Ok s1
        /\ cooldownSeconds s1 = n
        /\ events s1 = EvCooldownSet n :: events s
        /\ forall m' b c h1 h2,
             provider_at s (sender m') = true -> paused s = false ->
             lastSubmission_at s (sender m') + n < UINT256_MODULUS ->
             (submitContribution s1 m' b c h1 h2 = Err CooldownActive
              <-> timestamp m' < lastSubmission_at s (sender m') + n)).
Proof.
  intros Hown. unfold setCooldownSeconds, onlyOwner.
  rewrite bool_decide_eq_true_2 by exact Hown. unfold_result. cbn [negb]. split.
  - intros ->. reflexivity.
  - intros Hn. rewrite (proj2 (Z.eqb_neq _ _) Hn). eexists. split; [reflexivity|].
    cbn. split; [reflexivity|]. split; [reflexivity|].
    intros m' b c h1 h2 Hprov Hpaused Hrange.
    apply submit_cooldown_iff; assumption.
Qed.

(** X20: [openBatch] allocates the next id. Called by the owner while the
    contract is not paused and fewer than [2^32] batches exist, it appends one
    open batch whose id is the number of batches so far, leaves the existing
    batches as they are and logs [BatchOpened] with that id; the new batch
    is then closable, and a second [openBatch] gets the next id. *)
Theorem X20_openBatch_allocates_next_id (s : State) (m : Msg) :
  sender m = owner s -> paused s = false -> batches_length s < 2 ^ 32 ->
  exists s1, openBatch s m = Ok s1
    /\ batches s1 =
         batches s ++ [{| batch_id := batches_length s; batch_open := true |}]
    /\ batches_length s1 = batches_length s + 1
    /\ batch_at (batches s1) (batches_length s)
       = {| batch_id := batches_length s; batch_open := true |}
    /\ events s1 = EvBatchOpened (batches_length s) :: events s.
Proof.
  intros Hown Hpaused Hlen. unfold openBatch, onlyOwner, whenNotPaused.
  rewrite bool_decide_eq_true_2 by exact Hown. rewrite Hpaused. unfold_result. cbn [negb].
  eexists. split; [reflexivity|]. unfold batches_length in *.
  cbn [batches events emit set_batches].
  rewrite uint32_small by lia. unfold batches_write. rewrite Z.ltb_irrefl.
  split; [reflexivity|]. split; [rewrite length_app; cbn; lia|].
  split; [|reflexivity]. unfold batch_at. rewrite Nat2Z.id.
  rewrite list_lookup_middle by reflexivity. reflexivity.
Qed.

End Roles.

(** ** How the calls compose *)

Section Composition.

Context {F : Fhevm}.

Lemma submit_gates s m b c h1 h2 s1 :
  submitContribution s m b c h1 h2 = Ok s1 ->
  provider_at s (sender m) = true /\ paused s = false.
Proof. intros H. invert_ok H. guards_to_props. auto. Qed.

(** What a transaction of a caller other than the owner and other than the
    provider [p] leaves as it is. *)
Lemma step_bystander s tx p :
  sender tx.1 <> owner s -> sender tx.1 <> p ->
  owner (step s tx) = owner s
  /\ providers (step s tx) = providers s
  /\ paused (step s tx) = paused s
  /\ cooldownSeconds (step s tx) = cooldownSeconds s
  /\ lastSubmission_at (step s tx) p = lastSubmission_at s p.
Proof.
  intros Hown Hp. destruct tx as [m c]. unfold step. cbn [fst snd] in *.
  destruct (exec s m c) as [s'|e] eqn:E; [|repeat split; reflexivity].
  destruct (owner_only c) eqn:Ho.
  { rewrite (owner_only_not_owner s m c Hown Ho) in E. discriminate E. }
  pose proof (exec_footprint _ _ _ _ E) as (How & Hpr & Hpa & Hcs & _ & Hco & _).
  destruct c; try discriminate Ho; cbn in Hpr, Hpa, Hcs, Hco.
  - (* a submission of another provider *)
    cbn [exec] in E. destruct (submit_records_time _ _ _ _ _ _ _ E) as (_ & Hlast & _).
    rewrite (Hpr eq_refl), (Hpa eq_refl), (Hcs eq_refl), (Hlast p) by congruence. auto.
  - (* a callback *)
    destruct (Hco eq_refl) as (_ & Hls & _). unfold lastSubmission_at.
    rewrite (Hpr eq_refl), (Hpa eq_refl), (Hcs eq_refl), Hls. auto.
Qed.

Lemma run_bystanders txs : forall s p,
  Forall (fun tx => sender tx.1 <> owner s /\ sender tx.1 <> p) txs ->
  providers (run s txs) = providers s
  /\ paused (run s txs) = paused s
  /\ cooldownSeconds (run s txs) = cooldownSeconds s
  /\ lastSubmission_at (run s txs) p = lastSubmission_at s p.
Proof.
  induction txs as [|tx txs IH]; intros s p Hall; [repeat split; reflexivity|].
  apply Forall_cons in Hall as [[Hown Hp] Hrest]. rewrite run_cons.
  destruct (step_bystander s tx p Hown Hp) as (How & Hpr & Hpa & Hcs & Hls).
  destruct (IH (step s tx) p) as (Hpr' & Hpa' & Hcs' & Hls').
  { rewrite How. exact Hrest. }
  rewrite Hpr', Hpa', Hcs', Hls'. auto.
Qed.

(** X22: two submissions of one provider. After an accepted submission at
    time [t], and whatever callers other than the owner and that provider
    send in between, every submission of the same provider before
    [t + cooldown] fails with [CooldownActive], whatever batch and id it
    names, and from [t + cooldown] on neither the guard nor the provider and
    pause checks stop it (the sum in range). *)
Theorem X22_second_submission_waits (s : State) (m : Msg) (b : Z) (c : bytes32)
    (h1 h2 : euint32) (s1 : State) (txs : list (Msg * Call)) :
  submitContribution s m b c h1 h2 = Ok s1 ->
  timestamp m + cooldownSeconds s < UINT256_MODULUS ->
  Forall (fun tx => sender tx.1 <> owner s /\ sender tx.1 <> sender m) txs ->
  forall m2 b2 c2 h3 h4, sender m2 = sender m ->
    (timestamp m2 < timestamp m + cooldownSeconds s ->
       submitContribution (run s1 txs) m2 b2 c2 h3 h4 = Err CooldownActive)
    /\ (timestamp m + cooldownSeconds s <= timestamp m2 ->
        submitContribution (run s1 txs) m2 b2 c2 h3 h4 <> Err CooldownActive
        /\ submitContribution (run s1 txs) m2 b2 c2 h3 h4 <> Err NotProvider
        /\ submitContribution (run s1 txs) m2 b2 c2 h3 h4 <> Err Paused).
Proof.
  intros H Hrange Hall m2 b2 c2 h3 h4 Hsender.
  destruct (submit_records_time _ _ _ _ _ _ _ H) as (Hlast & _ & _).
  pose proof (exec_footprint s m (CSubmitContribution b c h1 h2) s1 H)
    as (Hown & Hpr & Hpa & Hcs & _).
  destruct (submit_gates _ _ _ _ _ _ _ H) as [Hprov Hpaused].
  destruct (run_bystanders txs s1 (sender m)) as (Hpr' & Hpa' & Hcs' & Hls').
  { rewrite Hown. exact Hall. }
  assert (Hs2 : provider_at (run s1 txs) (sender m2) = true
                /\ paused (run s1 txs) = false
                /\ cooldownSeconds (run s1 txs) = cooldownSeconds s
                /\ lastSubmission_at (run s1 txs) (sender m2) = timestamp m).
  { unfold provider_at in *.
    rewrite Hsender, Hpr', Hpa', Hcs', Hls', (Hpr eq_refl), (Hpa eq_refl), (Hcs eq_refl).
    auto. }
  destruct Hs2 as (Hprov2 & Hpaused2 & Hcd & Hlast2).
  assert (Hiff := submit_cooldown_iff (run s1 txs) m2 b2 c2 h3 h4 Hprov2 Hpaused2).
  rewrite Hlast2, Hcd in Hiff. specialize (Hiff Hrange).
  split.
  - intros Hlt. apply Hiff, Hlt.
  - intros Hge. split; [intros Hc; apply Hiff in Hc; lia|].
    unfold submitContribution, onlyProvider, whenNotPaused, checkSubmissionCooldown.
    rewrite Hprov2, Hpaused2.
    unfold_result. cbn [negb]. split; case_guards; discriminate.
Qed.

Lemma closeBatch_inv s m b s1 :
  closeBatch s m b = Ok s1 ->
  b < batches_length s /\ batch_open (batch_at (batches s) b) = true
  /\ sender m = owner s /\ paused s = false.
Proof. intros H. invert_ok H. guards_to_props. auto. Qed.

(** X24: a closed batch takes no submission. Once [closeBatch] has closed a
    batch, every submission into it fails, after any trace of transactions
    (as long as fewer than [2^32] batches exist); the error is [BatchClosed]
    once the provider, pause and cooldown checks pass. *)
Theorem X24_closed_batch_takes_no_submission (s : State) (m : Msg) (b : Z) (s1 : State)
    (txs : list (Msg * Call)) :
  closeBatch s m b = Ok s1 -> 0 <= b ->
  batches_length (run s1 txs) < 2 ^ 32 ->
  forall m' c h1 h2,
    (exists e, submitContribution (run s1 txs) m' b c h1 h2 = Err e)
    /\ step (run s1 txs) (m', CSubmitContribution b c h1 h2) = run s1 txs
    /\ (provider_at (run s1 txs) (sender m') = true -> paused (run s1 txs) = false ->
        lastSubmission_at (run s1 txs) (sender m') + cooldownSeconds (run s1 txs)
          <= timestamp m' ->
        timestamp m' < UINT256_MODULUS ->
        submitContribution (run s1 txs) m' b c h1 h2 = Err BatchClosed).
Proof.
  intros H Hb Hlen m' c h1 h2.
  assert (Hclosed : b < batches_length s1 /\ batch_open (batch_at (batches s1) b) = false).
  { destruct (closeBatch_inv _ _ _ _ H) as (Hlt & Hopen & Hown & Hpaused).
    destruct (closeBatch_open s m b Hown Hpaused ltac:(lia) Hopen)
      as (s' & Hs' & Hcl & _ & Hlen' & _).
    rewrite H in Hs'. injection Hs' as <-. split; [lia|exact Hcl]. }
  destruct Hclosed as [Hlt Hclosed].
  pose proof (run_batches_length txs s1) as Hmono.
  pose proof (run_keeps_closed txs s1 b Hlen ltac:(lia) Hclosed) as Hstill.
  assert (Herr : exists e, submitContribution (run s1 txs) m' b c h1 h2 = Err e).
  { unfold submitContribution. rewrite Hstill. open_call; eauto. }
  split; [exact Herr|]. split.
  - destruct Herr as [e He]. apply (step_err _ _ _ e). exact He.
  - intros Hprov Hpaused Hdue Hnow.
    unfold submitContribution, onlyProvider, whenNotPaused, checkSubmissionCooldown.
    rewrite Hprov, Hpaused, Hstill, checked_add_in_range by lia. unfold_result. cbn [negb].
    rewrite (proj2 (Z.ltb_ge _ _)) by lia. rewrite (proj2 (Z.leb_gt _ _)) by lia.
    reflexivity.
Qed.

(** X25: the handshake. After an accepted request, the callback for the
    oracle's id with a 32-byte cleartext and a proof that verifies is
    accepted: the stored hash is the one the callback recomputes. It marks
    the context processed and logs [DecryptionCompleted] with the request's
    batch id and the decoded cleartext, right above the request's own
    event. *)
Theorem X25_request_then_callback (s : State) (m : Msg) (b : Z) (requestId : uint256)
    (s1 : State) (m' : Msg) (cleartexts proof : bytes) :
  requestBatchScoreDecryption s m b requestId = Ok s1 ->
  length cleartexts = 32%nat ->
  FHE_checkSignatures requestId cleartexts proof = true ->
  exists s2, myCallback s1 m' requestId cleartexts proof = Ok s2
    /\ context_at s2 requestId =
         {| dc_batchId := b;
            dc_stateHash := _hashCiphertexts (batchCiphertexts s b);
            dc_processed := true |}
    /\ events s2 =
         EvDecryptionCompleted requestId b (abi_decode_uint256 cleartexts)
           :: EvDecryptionRequested requestId b :: events s.
Proof.
  intros H Hlen Hsig. pose proof (request_context _ _ _ _ _ H) as Hctx.
  assert (Hb : batches s1 = batches s /\
               events s1 = EvDecryptionRequested requestId b :: events s).
  { invert_ok H. cbn. split; reflexivity. }
  destruct Hb as [Hb Hev].
  unfold myCallback. rewrite Hctx. cbn [dc_processed dc_batchId dc_stateHash].
  rewrite (batchCiphertexts_batches s1 s b Hb), Z.eqb_refl, Hlen, Hsig.
  unfold_result. cbn [negb Nat.eqb]. eexists. split; [reflexivity|].
  unfold context_at. cbn. rewrite lookup_insert_eq, Hev. split; reflexivity.
Qed.

End Composition.

(** ** Decoding the cleartext *)

Section Decoding.

Lemma abi_decode_snoc (l : bytes) (b : byte) :
  abi_decode_uint256 (l ++ [b]) = abi_decode_uint256 l * 256 + Z.of_N (Byte.to_N b).
Proof. unfold abi_decode_uint256. rewrite fold_left_app. reflexivity. Qed.

Lemma byte_value_range (b : byte) : 0 <= Z.of_N (Byte.to_N b) < 256.
Proof. pose proof (Byte.to_N_bounded b). lia. Qed.

Lemma byte_value_inj (a b : byte) :
  Z.of_N (Byte.to_N a) = Z.of_N (Byte.to_N b) -> a = b.
Proof.
  intros H. apply N2Z.inj in H.
  pose proof (Byte.of_to_N a) as Ha. rewrite H, Byte.of_to_N in Ha. congruence.
Qed.

Lemma abi_decode_range (l : bytes) :
  0 <= abi_decode_uint256 l < 256 ^ Z.of_nat (length l).
Proof.
  induction l as [|b l IH] using rev_ind; [cbn; lia|].
  rewrite abi_decode_snoc, length_app. cbn [length].
  pose proof (byte_value_range b).
  replace (Z.of_nat (length l + 1)) with (Z.of_nat (length l) + 1) by lia.
  rewrite Z.pow_add_r by lia. lia.
Qed.

Lemma abi_decode_inj (l1 : bytes) : forall l2 : bytes,
  length l1 = length l2 -> abi_decode_uint256 l1 = abi_decode_uint256 l2 -> l1 = l2.
Proof.
  induction l1 as [|b1 l1 IH] using rev_ind; intros l2 Hlen Heq.
  - destruct l2; [reflexivity|discriminate Hlen].
  - destruct l2 as [|b2 l2 _] using rev_ind;
      [rewrite length_app in Hlen; cbn in Hlen; lia|].
    rewrite !length_app in Hlen. cbn in Hlen. rewrite !abi_decode_snoc in Heq.
    pose proof (byte_value_range b1). pose proof (byte_value_range b2).
    assert (Hb : Z.of_N (Byte.to_N b1) = Z.of_N (Byte.to_N b2)) by lia.
    assert (Hl : abi_decode_uint256 l1 = abi_decode_uint256 l2) by lia.
    rewrite (IH l2 ltac:(lia) Hl), (byte_value_inj _ _ Hb). reflexivity.
Qed.

(** X27: the decoded cleartext. The value [myCallback] decodes from a 32-byte
    cleartext is a [uint256] (between 0 and [2^256 - 1]), and two different
    32-byte cleartexts never decode to the same value. *)
Theorem X27_abi_decode_uint256_word (c1 c2 : bytes) :
  length c1 = 32%nat -> length c2 = 32%nat ->
  0 <= abi_decode_uint256 c1 < UINT256_MODULUS
  /\ (abi_decode_uint256 c1 = abi_decode_uint256 c2 -> c1 = c2).
Proof.
  intros H1 H2. split.
  - pose proof (abi_decode_range c1) as H. rewrite H1 in H.
    change (256 ^ Z.of_nat 32) with UINT256_MODULUS in H. exact H.
  - apply abi_decode_inj. congruence.
Qed.

End Decoding.

(** ** Completions *)

Section Completions.

Context {F : Fhevm}.

(** An accepted callback found a stored context: the zero context of an
    unknown id fails the hash comparison. *)
Lemma accepted_callback_stored s m requestId cleartexts proof s' :
  reachable_inv s -> snapshot_hashes_nonzero ->
  myCallback s m requestId cleartexts proof = Ok s' ->
  exists ctx, decryptionContexts s !! requestId = Some ctx
              /\ dc_processed ctx = false
              /\ decryptionContexts s' =
                   <[requestId := {| dc_batchId := dc_batchId ctx;
                                     dc_stateHash := dc_stateHash ctx;
                                     dc_processed := true |}]> (decryptionContexts s)
              /\ events s' =
                   EvDecryptionCompleted requestId (dc_batchId ctx)
                     (abi_decode_uint256 cleartexts) :: events s.
Proof.
  intros (Hbt & _) [H0 H1] H.
  destruct (decryptionContexts s !! requestId) as [ctx|] eqn:Hlook.
  - exists ctx. assert (Hctx : context_at s requestId = ctx)
      by (unfold context_at; rewrite Hlook; reflexivity).
    invert_ok H. guards_to_props. rewrite Hctx in *. cbn. auto.
  - exfalso. assert (Hctx : context_at s requestId = zero_context)
      by (unfold context_at; rewrite Hlook; reflexivity).
    invert_ok H. guards_to_props. rewrite Hctx in *. cbn in *.
    rewrite (batchCiphertexts_sequential s 0 Hbt) in *.
    destruct ((0 <=? 0) && (0 <? batches_length s)); congruence.
Qed.

(** A call other than the callback logs no completion, a call other than a
    request stores no new context. *)
Lemma exec_other_log s m c s' :
  exec s m c = Ok s' -> (forall r ct pf, c <> CMyCallback r ct pf) ->
  exists e, events s' = e :: events s
            /\ (forall r b t, e <> EvDecryptionCompleted r b t).
Proof.
  intros E Hc. destruct c; try (exfalso; eapply Hc; reflexivity);
    invert_ok E; cbn; rewrite ?initIfNeeded_events; eexists; split;
    try reflexivity; discriminate.
Qed.

Lemma completed_count_other requestId e evs :
  (forall r b t, e <> EvDecryptionCompleted r b t) ->
  completed_count requestId (e :: evs) = completed_count requestId evs.
Proof.
  intros He. cbn [completed_count]. destruct e; cbn [is_completed]; try reflexivity.
  exfalso. eapply He. reflexivity.
Qed.

Lemma step_completions_requested s tx :
  reachable_inv s -> snapshot_hashes_nonzero ->
  completions_requested s -> completions_requested (step s tx).
Proof.
  intros Hinv Hnz [Hctx Hlog]. destruct tx as [m c]. unfold step. cbn [fst snd].
  destruct (exec s m c) as [s'|e] eqn:E; [|split; assumption].
  unfold completions_requested.
  destruct c as [| | | | | | | |b r|r ct pf].
  1-8: destruct (exec_other_log _ _ _ _ E ltac:(discriminate)) as (ev & Hev & Hne);
       pose proof (exec_footprint _ _ _ _ E) as (_ & _ & _ & _ & _ & _ & Hdc & _);
       cbn in Hdc; specialize (Hdc eq_refl); rewrite Hev, Hdc; split;
       [ intros rid ctx Hl; apply list_elem_of_further, (Hctx _ _ Hl)
       | intros rid b t [Habs|Hin]%elem_of_cons;
         [exfalso; eapply Hne; symmetry; exact Habs
         | apply list_elem_of_further, (Hlog _ _ _ Hin)] ].
  - (* a request *)
    assert (Hs' : decryptionContexts s' =
                    <[r := {| dc_batchId := b;
                              dc_stateHash := _hashCiphertexts (batchCiphertexts s b);
                              dc_processed := false |}]> (decryptionContexts s)
                  /\ events s' = EvDecryptionRequested r b :: events s)
      by (invert_ok E; cbn; auto).
    destruct Hs' as [-> ->]. split.
    + intros rid ctx. destruct (decide (rid = r)) as [->|Hne].
      * rewrite lookup_insert_eq. intros [= <-]. cbn. apply list_elem_of_here.
      * rewrite lookup_insert_ne by congruence. intros Hl.
        apply list_elem_of_further, (Hctx _ _ Hl).
    + intros rid b' t [Habs|Hin]%elem_of_cons; [discriminate Habs|].
      apply list_elem_of_further, (Hlog _ _ _ Hin).
  - (* a callback *)
    cbn [exec] in E.
    destruct (accepted_callback_stored _ _ _ _ _ _ Hinv Hnz E)
      as (ctx & Hl & _ & -> & ->). split.
    + intros rid ctx'. destruct (decide (rid = r)) as [->|Hne].
      * rewrite lookup_insert_eq. intros [= <-]. cbn.
        apply list_elem_of_further, (Hctx _ _ Hl).
      * rewrite lookup_insert_ne by congruence. intros Hl'.
        apply list_elem_of_further, (Hctx _ _ Hl').
    + intros rid b' t [Heq|Hin]%elem_of_cons.
      * injection Heq as -> -> _. apply list_elem_of_further, (Hctx _ _ Hl).
      * apply list_elem_of_further, (Hlog _ _ _ Hin).
Qed.

(** X4: no completion without a request. With the two snapshot hashes
    different from the zero word, in every state the contract reaches each
    logged [DecryptionCompleted] answers a logged [DecryptionRequested] with
    the same request id and the same batch id, and each stored context comes
    from a logged request. *)
Theorem X4_completion_answers_request (m0 : Msg) (txs : list (Msg * Call)) :
  snapshot_hashes_nonzero ->
  let s := run (constructor m0) txs in
  (forall requestId b total,
     EvDecryptionCompleted requestId b total ∈ events s ->
     EvDecryptionRequested requestId b ∈ events s)
  /\ (forall requestId ctx,
        decryptionContexts s !! requestId = Some ctx ->
        EvDecryptionRequested requestId (dc_batchId ctx) ∈ events s).
Proof.
  intros Hnz s.
  assert (H : reachable_inv s /\ completions_requested s).
  { apply (run_invariant (fun s => reachable_inv s /\ completions_requested s)).
    - intros s0 tx [Hinv Hc]. split; [apply step_reachable_inv, Hinv|].
      apply step_completions_requested; assumption.
    - split; [apply constructor_reachable_inv|].
      unfold completions_requested, constructor.
      match goal with |- context [_initIfNeeded ?s0] =>
        pose proof (initIfNeeded_frame s0) as (_ & _ & -> & _);
        rewrite (initIfNeeded_events s0) end.
      cbn. split; intros.
      + rewrite lookup_empty in H. discriminate.
      + inversion H. }
  destruct H as [_ [Hctx Hlog]]. split; assumption.
Qed.

Lemma step_completions_once s tx used :
  reachable_inv s -> snapshot_hashes_nonzero ->
  (forall r, request_id_of tx = Some r -> r ∉ used) ->
  completions_once s used ->
  completions_once (step s tx)
    (match request_id_of tx with Some r => used ++ [r] | None => used end).
Proof.
  intros Hinv Hnz Hfresh (Hst & Hle & Hone). destruct tx as [m c].
  unfold step, request_id_of in *. cbn [fst snd] in *.
  destruct (exec s m c) as [s'|e] eqn:E.
  2: { destruct c; try (repeat split; auto; apply Hone; assumption).
       split; [|split].
       - intros rid ctx Hl. apply elem_of_app. left. eapply Hst, Hl.
       - exact Hle.
       - intros rid H1. destruct (Hone rid H1). split; [assumption|].
         apply elem_of_app. left. assumption. }
  unfold completions_once.
  destruct c as [| | | | | | | |b r|r ct pf]; cbn [snd].
  1-8: destruct (exec_other_log _ _ _ _ E ltac:(discriminate)) as (ev & Hev & Hne);
       pose proof (exec_footprint _ _ _ _ E) as (_ & _ & _ & _ & _ & _ & Hdc & _);
       cbn in Hdc; specialize (Hdc eq_refl); unfold context_at in *; rewrite Hev, Hdc;
       split; [exact Hst|]; split;
       [ intros rid; rewrite (completed_count_other _ _ _ Hne); apply Hle
       | intros rid; rewrite (completed_count_other _ _ _ Hne); apply Hone ].
  - (* a request under a fresh id *)
    assert (Hs' : decryptionContexts s' =
                    <[r := {| dc_batchId := b;
                              dc_stateHash := _hashCiphertexts (batchCiphertexts s b);
                              dc_processed := false |}]> (decryptionContexts s)
                  /\ events s' = EvDecryptionRequested r b :: events s)
      by (invert_ok E; cbn; auto).
    destruct Hs' as [Hdc Hev]. specialize (Hfresh r eq_refl).
    unfold context_at in *. rewrite Hdc, Hev. split; [|split].
    + intros rid ctx. rewrite elem_of_app, list_elem_of_singleton.
      destruct (decide (rid = r)) as [->|Hne]; [auto|].
      rewrite lookup_insert_ne by congruence. intros Hl. left. eapply Hst, Hl.
    + intros rid. cbn [completed_count is_completed]. apply Hle.
    + intros rid. cbn [completed_count is_completed]. intros H1.
      destruct (Hone rid H1) as [Hp Hin].
      destruct (decide (rid = r)) as [->|Hne]; [contradiction|].
      rewrite lookup_insert_ne by congruence. split; [exact Hp|].
      apply elem_of_app. left. exact Hin.
  - (* a callback *)
    cbn [exec] in E.
    destruct (accepted_callback_stored _ _ _ _ _ _ Hinv Hnz E)
      as (ctx & Hl & Hp & Hdc & Hev).
    unfold context_at in *. rewrite Hdc, Hev.
    assert (Hzero : completed_count r (events s) = 0%nat).
    { pose proof (Hle r) as Hr. destruct (completed_count r (events s)) as [|[|n]] eqn:Hc;
        [reflexivity| |lia].
      destruct (Hone r Hc) as [Hp' _]. rewrite Hl in Hp'. cbn in Hp'. congruence. }
    split; [|split].
    + intros rid ctx'. destruct (decide (rid = r)) as [->|Hne].
      * intros _. eapply Hst, Hl.
      * rewrite lookup_insert_ne by congruence. apply Hst.
    + intros rid. cbn [completed_count is_completed].
      destruct (r =? rid) eqn:Er.
      * apply Z.eqb_eq in Er. subst rid. rewrite Hzero. lia.
      * cbn. apply Hle.
    + intros rid. cbn [completed_count is_completed].
      destruct (r =? rid) eqn:Er.
      * apply Z.eqb_eq in Er. subst rid. intros _.
        rewrite lookup_insert_eq. cbn. split; [reflexivity|]. eapply Hst, Hl.
      * apply Z.eqb_neq in Er. cbn. intros H1. destruct (Hone rid H1) as [Hp' Hin].
        rewrite lookup_insert_ne by congruence. auto.
Qed.

Lemma run_completions_once txs : forall s used,
  reachable_inv s -> snapshot_hashes_nonzero ->
  NoDup (used ++ request_ids txs) ->
  completions_once s used ->
  forall requestId, (completed_count requestId (events (run s txs)) <= 1)%nat.
Proof.
  induction txs as [|tx txs IH]; intros s used Hinv Hnz Hnd Hc requestId.
  - apply Hc.
  - rewrite run_cons. unfold request_ids in Hnd. cbn [omap list_omap] in Hnd.
    fold (request_ids txs) in Hnd.
    pose proof (step_completions_once s tx used Hinv Hnz) as Hstep.
    destruct (request_id_of tx) as [r|] eqn:Hr.
    + apply NoDup_app in Hnd as (Hu & Hdisj & Hrest).
      apply NoDup_cons in Hrest as [Hr1 Hr2].
      apply (IH (step s tx) (used ++ [r])); auto.
      * apply step_reachable_inv, Hinv.
      * rewrite <- app_assoc. cbn. apply NoDup_app. repeat split; auto.
        apply NoDup_cons. auto.
      * apply Hstep; auto. intros r' [= <-] Hin. eapply Hdisj; [exact Hin|].
        apply list_elem_of_here.
    + apply (IH (step s tx) used); auto.
      * apply step_reachable_inv, Hinv.
      * apply Hstep; auto. discriminate.
Qed.

(** X5: a request completes at most once. On every trace from the
    construction in which the oracle hands out no request id twice, and with
    the two snapshot hashes different from the zero word, the log never holds
    more than one [DecryptionCompleted] event for a request id. *)
Theorem X5_completed_at_most_once (m0 : Msg) (txs : list (Msg * Call))
    (requestId : uint256) :
  snapshot_hashes_nonzero ->
  NoDup (request_ids txs) ->
  (completed_count requestId (events (run (constructor m0) txs)) <= 1)%nat.
Proof.
  intros Hnz Hnd. apply (run_completions_once txs (constructor m0) []); auto.
  - apply constructor_reachable_inv.
  - unfold completions_once, context_at, constructor.
    match goal with |- context [_initIfNeeded ?s0] =>
      pose proof (initIfNeeded_frame s0) as (_ & _ & -> & _);
      rewrite (initIfNeeded_events s0) end.
    cbn. repeat split; intros; try lia; try discriminate.
    all: match goal with
         | H : _ !! _ = Some _ |- _ => rewrite lookup_empty in H; discriminate H
         end.
Qed.

End Completions.

(** ** The registry and the log; pending requests *)

Section Bookkeeping.

Context {F : Fhevm}.

Lemma step_registry_size s tx :
  ledger_inv s ->
  size (contributions s) = length (submitted_ids (events s)) ->
  size (contributions (step s tx)) = length (submitted_ids (events (step s tx))).
Proof.
  intros (_ & _ & Hflag) Hsize. destruct tx as [m call]. unfold step. cbn [fst snd].
  destruct (exec s m call) as [s'|e] eqn:E; [|exact Hsize].
  destruct call as [| | | | | | |b i h1 h2| |];
    try (apply exec_other_contributions in E as [-> ->]; [exact Hsize|discriminate]).
  cbn [exec] in E. apply submit_stores in E as (Hfresh & -> & ->).
  assert (Hnone : contributions s !! i = None).
  { destruct (contributions s !! i) as [r|] eqn:Hr; [|reflexivity].
    unfold contribution_at in Hfresh. rewrite Hr in Hfresh. cbn in Hfresh.
    rewrite (Hflag _ _ Hr) in Hfresh. discriminate. }
  rewrite (map_size_insert_None _ _ _ Hnone), Hsize. reflexivity.
Qed.

(** X7: the registry and the log agree in number. In every state the
    contract reaches, the registry holds exactly as many records as the log has
    [ContributionSubmitted] events: every accepted submission added one
    record and nothing ever removed or merged one. *)
Theorem X7_registry_size_is_submission_count (m0 : Msg) (txs : list (Msg * Call)) :
  let s := run (constructor m0) txs in
  size (contributions s) = length (submitted_ids (events s)).
Proof.
  intros s.
  assert (H : ledger_inv s /\ size (contributions s) = length (submitted_ids (events s))).
  { apply (run_invariant
             (fun s => ledger_inv s
                       /\ size (contributions s) = length (submitted_ids (events s)))).
    - intros s0 tx [Hinv Hsize]. split; [apply step_ledger_inv, Hinv|].
      apply step_registry_size; assumption.
    - split; [apply constructor_ledger_inv|]. unfold constructor.
      rewrite initIfNeeded_contributions, initIfNeeded_events. reflexivity. }
  apply H.
Qed.

(** X23: the guard on a first submission. A provider without an earlier
    submission has last submission time 0: the submission is refused with
    [CooldownActive] exactly when [block.timestamp] is below the cooldown
    itself. *)
Theorem X23_first_submission_guard (s : State) (m : Msg) (b : Z) (c : bytes32)
    (h1 h2 : euint32) :
  lastSubmissionTime s !! sender m = None ->
  provider_at s (sender m) = true -> paused s = false ->
  cooldownSeconds s < UINT256_MODULUS ->
  submitContribution s m b c h1 h2 = Err CooldownActive
  <-> timestamp m < cooldownSeconds s.
Proof.
  intros Hnone Hprov Hpaused Hrange.
  assert (H0 : lastSubmission_at s (sender m) = 0)
    by (unfold lastSubmission_at; rewrite Hnone; reflexivity).
  pose proof (submit_cooldown_iff s m b c h1 h2 Hprov Hpaused) as Hiff.
  rewrite H0, Z.add_0_l in Hiff. apply Hiff, Hrange.
Qed.

Lemma run_app s txs1 txs2 : run s (txs1 ++ txs2) = run (run s txs1) txs2.
Proof. unfold run. apply fold_left_app. Qed.

Lemma step_pending_closed s tx :
  batches_length s < 2 ^ 32 -> pending_closed s -> pending_closed (step s tx).
Proof.
  intros Hlen Hpc rid ctx Hlook Hp Hb.
  assert (Hold : decryptionContexts s !! rid = Some ctx ->
                 dc_batchId ctx < batches_length (step s tx)
                 /\ batch_open (batch_at (batches (step s tx)) (dc_batchId ctx)) = false).
  { intros Hl. destruct (Hpc _ _ Hl Hp Hb) as [Hlt Hcl].
    pose proof (step_batches_length s tx). split; [lia|].
    apply step_keeps_closed; [exact Hlen|lia|exact Hcl]. }
  destruct tx as [m c]. unfold step in *. cbn [fst snd] in *.
  destruct (exec s m c) as [s'|e] eqn:E; [|apply Hold, Hlook].
  pose proof (exec_footprint _ _ _ _ E) as (_ & _ & _ & _ & Hba & _ & Hdc & _).
  destruct c as [| | | | | | | |b r|r ct pf];
    try (apply Hold; rewrite <- (Hdc eq_refl); exact Hlook).
  - (* a request *)
    destruct (decide (rid = r)) as [->|Hne].
    + pose proof (request_context _ _ _ _ _ E) as Hctx. unfold context_at in Hctx.
      rewrite Hlook in Hctx. cbn in Hctx. subst ctx. cbn in *.
      rewrite (Hba eq_refl). unfold batches_length. rewrite (Hba eq_refl).
      invert_ok E. guards_to_props. auto.
    + apply Hold. invert_ok E. cbn in Hlook.
      rewrite lookup_insert_ne in Hlook by congruence. exact Hlook.
  - (* a callback *)
    destruct (decide (rid = r)) as [->|Hne].
    + exfalso. invert_ok E. cbn in Hlook. rewrite lookup_insert_eq in Hlook.
      injection Hlook as <-. discriminate Hp.
    + apply Hold. invert_ok E. cbn in Hlook.
      rewrite lookup_insert_ne in Hlook by congruence. exact Hlook.
Qed.

Lemma run_pending_closed txs : forall s,
  batches_length (run s txs) < 2 ^ 32 -> pending_closed s -> pending_closed (run s txs).
Proof.
  induction txs as [|tx txs IH] using rev_ind; intros s Hlen Hpc; [exact Hpc|].
  rewrite run_app in *. cbn [run fold_left] in *.
  pose proof (step_batches_length (run s txs) tx) as Hmono.
  apply step_pending_closed; [lia|]. apply IH; [lia|exact Hpc].
Qed.

(** X6: pending requests name closed batches. In every state the contract
    reaches with fewer than [2^32] batches, each unprocessed context names a
    batch of the table, and that batch is closed: a snapshot is only ever
    taken of a closed batch, and the batch stays closed while the request is
    pending. *)
Theorem X6_pending_request_names_closed_batch (m0 : Msg) (txs : list (Msg * Call))
    (requestId : uint256) (ctx : DecryptionContext) :
  let s := run (constructor m0) txs in
  batches_length s < 2 ^ 32 ->
  decryptionContexts s !! requestId = Some ctx ->
  dc_processed ctx = false -> 0 <= dc_batchId ctx ->
  dc_batchId ctx < batches_length s
  /\ batch_open (batch_at (batches s) (dc_batchId ctx)) = false.
Proof.
  intros s Hlen. apply (run_pending_closed txs (constructor m0) Hlen).
  intros rid c Hl. unfold constructor in Hl.
  match type of Hl with context [_initIfNeeded ?s0] =>
    pose proof (initIfNeeded_frame s0) as (_ & _ & Hd & _); rewrite Hd in Hl end.
  cbn in Hl. rewrite lookup_empty in Hl. discriminate.
Qed.

End Bookkeeping.

Section BatchScope.

Context {F : Fhevm}.

(** X26: a stored record carries no batch. The batch id of an accepted
    submission is checked and logged, but it is not stored: the same
    submission accepted under two batch ids leaves the same storage, and the
    two states differ in the logged event only. *)
Theorem X26_record_carries_no_batch (s : State) (m : Msg) (b b' : Z) (c : bytes32)
    (h1 h2 : euint32) (s1 s1' : State) :
  submitContribution s m b c h1 h2 = Ok s1 ->
  submitContribution s m b' c h1 h2 = Ok s1' ->
  contributions s1 = contributions s1'
  /\ providers s1 = providers s1' /\ batches s1 = batches s1'
  /\ decryptionContexts s1 = decryptionContexts s1'
  /\ lastSubmissionTime s1 = lastSubmissionTime s1'
  /\ lastDecryptionRequestTime s1 = lastDecryptionRequestTime s1'
  /\ owner s1 = owner s1' /\ paused s1 = paused s1'
  /\ cooldownSeconds s1 = cooldownSeconds s1'
  /\ fheInitialized s1 = fheInitialized s1'
  /\ events s1 = EvContributionSubmitted (sender m) b c :: events s
  /\ events s1' = EvContributionSubmitted (sender m) b' c :: events s.
Proof.
  intros H H'. invert_ok H. invert_ok H'. cbn.
  rewrite initIfNeeded_events. repeat split; reflexivity.
Qed.

(** X21: [closeBatch] touches one batch. An accepted [closeBatch] clears the
    open flag of the named batch, keeps its id, and leaves every other batch
    and the length of the table as they were; the owner's second [closeBatch]
    on the same batch then fails with [BatchClosed]. *)
Theorem X21_closeBatch_touches_one_batch (s : State) (m : Msg) (b : Z) (s1 : State) :
  closeBatch s m b = Ok s1 -> 0 <= b ->
  batch_at (batches s1) b
  = {| batch_id := batch_id (batch_at (batches s) b); batch_open := false |}
  /\ (forall k, 0 <= k -> k <> b -> batch_at (batches s1) k = batch_at (batches s) k)
  /\ batches_length s1 = batches_length s
  /\ (forall m', sender m' = owner s -> closeBatch s1 m' b = Err BatchClosed).
Proof.
  intros H Hb. destruct (closeBatch_inv _ _ _ _ H) as (Hlt & Hopen & Hown & Hpaused).
  assert (Hs1 : batches s1 =
                  <[Z.to_nat b := {| batch_id := batch_id (batch_at (batches s) b);
                                     batch_open := false |}]> (batches s)
                /\ owner s1 = owner s /\ paused s1 = paused s).
  { invert_ok H. cbn. unfold batches_write, batches_length in *.
    rewrite (proj2 (Z.ltb_lt _ _)) by lia. auto. }
  destruct Hs1 as (Hbs & Ho & Hp). unfold batches_length in *.
  assert (Hat : batch_at (batches s1) b
                = {| batch_id := batch_id (batch_at (batches s) b); batch_open := false |}).
  { unfold batch_at at 1. rewrite Hbs, list_lookup_insert_eq by lia. reflexivity. }
  split; [exact Hat|]. split; [|split].
  - intros k Hk Hne. unfold batch_at. rewrite Hbs, list_lookup_insert_ne by lia.
    reflexivity.
  - rewrite Hbs, length_insert. reflexivity.
  - intros m' Hm'. unfold closeBatch, onlyOwner, whenNotPaused.
    rewrite Ho, Hp, Hpaused, Hat. rewrite bool_decide_eq_true_2 by exact Hm'.
    unfold_result. cbn [negb batch_open]. unfold batches_length.
    rewrite Hbs, length_insert. rewrite (proj2 (Z.leb_gt _ _)) by lia. reflexivity.
Qed.

End BatchScope.

(** ** The snapshot of a request *)

Section Snapshot.

Context {F : Fhevm}.







End Snapshot.

(** ** When the calls are accepted; traces of [openBatch] *)

Section Acceptance.

Context {F : Fhevm}.











End Acceptance.

(** ** The contract on concrete transactions *)

Import Sample.
Import SampleTraces.

(** Closed facts about the sample states are settled by evaluation. *)
Ltac by_evaluation :=
  vm_compute; repeat split; first [reflexivity | discriminate].






(** C2, on two states with the same batches and different contributions. *)
Lemma C2_aggregate_witness :
  batches requested = batches requested_two
  /\ contributions requested <> contributions requested_two
  /\ batchCiphertexts requested 0 = batchCiphertexts requested_two 0
  /\ batchCiphertexts requested 0 = [FHE_toBytes32 (FHE_asEuint32 1)].
Proof.
  assert (Hb : batches requested = batches requested_two) by (vm_compute; reflexivity).
  assert (Hlen : Z.of_nat (length (batches requested)) <= 2 ^ 32)
    by (vm_compute; discriminate).
  pose proof (C2_aggregate_depends_on_batch_table_only requested requested_two Hb)
    as (Hcts & _ & _ & Hcount).
  split; [exact Hb|]. split.
  - intros H. apply (f_equal (fun c => c !! 13)) in H. vm_compute in H. discriminate H.
  - split; [apply Hcts|]. exact (Hcount 0 Hlen).
Defined.

(** C3, on the accepted callback of request 7 and a later replay. *)
Lemma C3_callback_replay_witness :
  myCallback drifted (at_time oracle 3001) 7 cleartext42 good_proof = Ok completed
  /\ completed_count 7 (events completed) = 1%nat
  /\ myCallback
       (run completed [(at_time mallory 3500, CMyCallback 7 cleartext42 good_proof)])
       (at_time oracle 3600) 7 cleartext42 good_proof = Err ReplayDetected.
Proof.
  assert (H : myCallback drifted (at_time oracle 3001) 7 cleartext42 good_proof
              = Ok completed) by (vm_compute; reflexivity).
  pose proof (C3_callback_replay_detected _ _ _ _ _ _ H) as (_ & _ & Hc & Hk).
  split; [exact H|]. split; [vm_compute; reflexivity|].
  refine (proj1 (proj2 (proj2 (Hk [(at_time mallory 3500, _)] _)) _ _ _)).
  constructor; [|constructor]. unfold requests_with. cbn. tauto.
Defined.

(** C4: the duplicate of contribution 12 is refused with [InvalidArgument];
    no error of the name [DuplicateContribution] is raised. *)
Lemma C4_duplicate_error_counterexample :
  sc_exists (contribution_at drifted 12) = true
  /\ submitContribution drifted (at_time alice 3100) 1 12 5 6 = Err InvalidArgument
  /\ ~ (exists e, submitContribution drifted (at_time alice 3100) 1 12 5 6 = Err e
                  /\ error_name e = "DuplicateContribution").
Proof.
  split; [vm_compute; reflexivity|]. split; [vm_compute; reflexivity|].
  intros (e & He & Hname). vm_compute in He. injection He as <-. discriminate Hname.
Qed.

Lemma C4_duplicate_submission_witness :
  sc_exists (contribution_at drifted 12) = true
  /\ submitContribution drifted (at_time alice 3100) 1 12 5 6 = Err InvalidArgument
  /\ step drifted (at_time alice 3100, CSubmitContribution 1 12 5 6) = drifted.
Proof.
  assert (Hex : sc_exists (contribution_at drifted 12) = true) by (vm_compute; reflexivity).
  pose proof (C4_duplicate_submission_rejected drifted (at_time alice 3100) 1 12 5 6)
    as [Hdup _].
  destruct (Hdup Hex) as (_ & Hsame & Herr).
  split; [exact Hex|]. split; [|exact Hsame].
  apply Herr; by_evaluation.
Defined.

(** C5: the callback for request 8, which nobody made, fails with
    [StateMismatch]; no error of the name [UnknownRequest] is raised. *)
Lemma C5_unknown_request_counterexample :
  decryptionContexts requested !! 8 = None
  /\ myCallback requested (at_time oracle 3001) 8 cleartext42 good_proof
     = Err StateMismatch
  /\ ~ (exists e, myCallback requested (at_time oracle 3001) 8 cleartext42 good_proof = Err e
                  /\ error_name e = "UnknownRequest").
Proof.
  split; [vm_compute; reflexivity|]. split; [vm_compute; reflexivity|].
  intros (e & He & Hname). vm_compute in He. injection He as <-. discriminate Hname.
Qed.

Lemma C5_unknown_request_witness :
  decryptionContexts requested !! 8 = None
  /\ myCallback requested (at_time oracle 3001) 8 [x2a] good_proof = Err DecryptionFailed
  /\ myCallback requested (at_time oracle 3001) 8 cleartext42 good_proof
     = Err StateMismatch.
Proof.
  assert (Hnone : decryptionContexts requested !! 8 = None) by (vm_compute; reflexivity).
  split; [exact Hnone|]. split.
  - apply (C5_callback_for_unknown_request requested _ 8 [x2a] good_proof Hnone).
    cbn. discriminate.
  - apply (C5_callback_for_unknown_request requested _ 8 cleartext42 good_proof Hnone).
    + reflexivity.
    + vm_compute. discriminate.
Defined.

(** C6: while the contract is paused the owner changes the cooldown, and
    the callback of the pending request 7 is accepted and recorded. *)
Lemma C6_setCooldown_while_paused_counterexample :
  paused halted = true
  /\ cooldownSeconds halted = 60
  /\ error_of (setCooldownSeconds halted (at_time deployer 2300) 30) = None
  /\ cooldownSeconds (step halted (at_time deployer 2300, CSetCooldownSeconds 30)) = 30
  /\ ~ (exists e, setCooldownSeconds halted (at_time deployer 2300) 30 = Err e)
  /\ dc_processed (context_at halted 7) = false
  /\ dc_processed (context_at (step halted (callback7 oracle)) 7) = true
  /\ paused (step halted (callback7 oracle)) = true.
Proof.
  repeat split; try (vm_compute; reflexivity).
  intros (e & He). vm_compute in He. discriminate He.
Qed.

Lemma C6_paused_witness :
  paused halted = true
  /\ openBatch halted (at_time deployer 2300) = Err Paused
  /\ openBatch halted (at_time mallory 2300) = Err NotOwner
  /\ submitContribution halted (at_time alice 2300) 1 12 71 81 = Err Paused
  /\ step halted (at_time deployer 2300, CCloseBatch 1) = halted.
Proof.
  assert (Hp : paused halted = true) by (vm_compute; reflexivity).
  pose proof (C6_paused_blocks_gated_calls halted (at_time deployer 2300) Hp)
    as (_ & _ & Hopen & _ & _ & _ & Hstep).
  pose proof (C6_paused_blocks_gated_calls halted (at_time mallory 2300) Hp)
    as (_ & _ & Hopen' & _).
  pose proof (C6_paused_blocks_gated_calls halted (at_time alice 2300) Hp)
    as (_ & _ & _ & _ & _ & Hsub & _).
  split; [exact Hp|]. split; [exact Hopen|]. split; [exact Hopen'|].
  split; [exact (Hsub 1 12 71 81)|]. apply Hstep. reflexivity.
Defined.

(** C7: a caller that is neither the oracle nor the owner delivers the
    callback of request 7, and it is accepted. *)
Lemma C7_any_caller_counterexample :
  mallory <> oracle
  /\ mallory <> owner drifted
  /\ dc_processed (context_at drifted 7) = false
  /\ error_of (myCallback drifted (at_time mallory 3001) 7 cleartext42 good_proof) = None
  /\ dc_processed (context_at (step drifted (callback7 mallory)) 7) = true
  /\ ~ (exists e, myCallback drifted (at_time mallory 3001) 7 cleartext42 good_proof
                  = Err e).
Proof.
  repeat split; try (vm_compute; first [reflexivity | discriminate]).
  intros (e & He). vm_compute in He. discriminate He.
Qed.

Lemma C7_callback_witness :
  FHE_checkSignatures 7 cleartext42 bad_proof = false
  /\ myCallback drifted (at_time mallory 3001) 7 cleartext42 bad_proof
     = myCallback drifted (at_time oracle 3001) 7 cleartext42 bad_proof
  /\ myCallback drifted (at_time oracle 3001) 7 cleartext42 bad_proof
     = Err DecryptionFailed
  /\ step drifted (at_time oracle 3001, CMyCallback 7 cleartext42 bad_proof) = drifted.
Proof.
  assert (Hsig : FHE_checkSignatures 7 cleartext42 bad_proof = false) by reflexivity.
  pose proof (C7_callback_gated_by_proof_not_caller drifted
                (at_time oracle 3001) (at_time mallory 3001) 7 cleartext42 bad_proof)
    as (Hcaller & _ & Hrej).
  destruct (Hrej Hsig) as (_ & Hsame & Herr).
  split; [exact Hsig|]. split; [symmetry; exact Hcaller|].
  split; [|exact Hsame]. apply Herr; by_evaluation.
Defined.

(** C8: the owner sets the cooldown of [drifted] to [2^256 - 1]. Alice's
    last submission was at 3000 and the owner's last request at 2102, so at
    time 4100 [now] is below both sums; the two guarded calls fail with the
    panic of the checked addition, not with [CooldownActive]. *)
Lemma C8_overflow_counterexample :
  cooldownSeconds overflowing = 2 ^ 256 - 1
  /\ provider_at overflowing alice = true
  /\ owner overflowing = deployer
  /\ paused overflowing = false
  /\ 4100 < lastSubmission_at overflowing alice + cooldownSeconds overflowing
  /\ submitContribution overflowing (at_time alice 4100) 1 20 1 2 = Err Panic
  /\ submitContribution overflowing (at_time alice 4100) 1 20 1 2 <> Err CooldownActive
  /\ 4100 < lastDecryptionRequest_at overflowing deployer + cooldownSeconds overflowing
  /\ requestBatchScoreDecryption overflowing (at_time deployer 4100) 0 9 = Err Panic
  /\ requestBatchScoreDecryption overflowing (at_time deployer 4100) 0 9
     <> Err CooldownActive.
Proof. repeat split; vm_compute; first [reflexivity | discriminate]. Qed.

(** C8, on alice (submission class) and the owner (request class), in range
    in [drifted] and out of range in [overflowing]. *)
Lemma C8_cooldown_witness :
  lastSubmission_at drifted alice = 3000
  /\ cooldownSeconds drifted = 60
  /\ submitContribution drifted (at_time alice 3059) 1 14 1 2 = Err CooldownActive
  /\ submitContribution drifted (at_time alice 3060) 1 14 1 2 <> Err CooldownActive
  /\ lastDecryptionRequest_at drifted deployer = 2102
  /\ requestBatchScoreDecryption drifted (at_time deployer 2161) 0 9 = Err CooldownActive
  /\ requestBatchScoreDecryption drifted (at_time deployer 2162) 0 9 <> Err CooldownActive
  /\ submitContribution overflowing (at_time alice 4100) 1 20 1 2 = Err Panic.
Proof.
  assert (Hp : paused drifted = false) by (vm_compute; reflexivity).
  assert (Hp' : paused overflowing = false) by (vm_compute; reflexivity).
  assert (Hprov : provider_at drifted alice = true) by (vm_compute; reflexivity).
  assert (Hprov' : provider_at overflowing alice = true) by (vm_compute; reflexivity).
  assert (Hown : deployer = owner drifted) by (vm_compute; reflexivity).
  pose proof (C8_cooldown_guard drifted (at_time alice 3059) Hp) as [Hsub _].
  pose proof (C8_cooldown_guard drifted (at_time alice 3060) Hp) as [Hsub' _].
  pose proof (C8_cooldown_guard drifted (at_time deployer 2161) Hp) as [_ Hreq].
  pose proof (C8_cooldown_guard drifted (at_time deployer 2162) Hp) as [_ Hreq'].
  pose proof (C8_cooldown_guard overflowing (at_time alice 4100) Hp') as [Hover _].
  split; [vm_compute; reflexivity|]. split; [vm_compute; reflexivity|].
  split; [apply (Hsub Hprov 1 14 1 2); by_evaluation|].
  split; [intros H; apply (Hsub' Hprov 1 14 1 2) in H as [_ H]; vm_compute in H;
          discriminate H|].
  split; [vm_compute; reflexivity|].
  split; [apply (Hreq Hown 0 9); by_evaluation|].
  split; [intros H; apply (Hreq' Hown 0 9) in H as [_ H]; vm_compute in H;
          discriminate H|].
  apply (Hover Hprov' 1 20 1 2). vm_compute. discriminate.
Defined.

(** C9: closing the closed batch 0 is refused with [BatchClosed]; no error
    of the name [AlreadyClosed] is raised. *)
Lemma C9_already_closed_counterexample :
  batch_open (batch_at (batches closed) 0) = false
  /\ closeBatch closed (at_time deployer 2300) 0 = Err BatchClosed
  /\ ~ (exists e, closeBatch closed (at_time deployer 2300) 0 = Err e
                  /\ error_name e = "AlreadyClosed").
Proof.
  split; [vm_compute; reflexivity|]. split; [vm_compute; reflexivity|].
  intros (e & He & Hname). vm_compute in He. injection He as <-. discriminate Hname.
Qed.

Lemma C9_closeBatch_witness :
  closeBatch closed (at_time deployer 2300) 5 = Err InvalidBatch
  /\ closeBatch closed (at_time deployer 2300) 0 = Err BatchClosed
  /\ (exists s', closeBatch closed (at_time deployer 2300) 1 = Ok s'
                 /\ batch_open (batch_at (batches s') 1) = false)
  /\ batch_open
       (batch_at
          (batches (run closed [(at_time deployer 2300, COpenBatch); request7;
                                late_submission; callback7 oracle])) 0) = false.
Proof.
  pose proof (C9_closeBatch_lifecycle closed (at_time deployer 2300) 5) as [H5 _].
  pose proof (C9_closeBatch_lifecycle closed (at_time deployer 2300) 0) as [H0 Hkeep].
  pose proof (C9_closeBatch_lifecycle closed (at_time deployer 2300) 1) as [H1 _].
  split; [apply H5; by_evaluation|]. split; [apply H0; by_evaluation|]. split.
  - destruct H1 as (_ & _ & Hclose); [by_evaluation..|].
    destruct Hclose as (s' & Hs' & Hclosed & _); [by_evaluation..|].
    exists s'. split; assumption.
  - apply Hkeep; by_evaluation.
Defined.

(** C10, on the trace that leads to the state [drifted]. *)
Lemma C10_contributions_witness :
  submitted_ids (events (run (constructor (at_time deployer 1000))
                           (setup ++ [request7; late_submission]))) = [12; 11]
  /\ NoDup (submitted_ids (events (run (constructor (at_time deployer 1000))
                                     (setup ++ [request7; late_submission]))))
  /\ contributions
       (run (run (constructor (at_time deployer 1000))
               (setup ++ [request7; late_submission]))
          [(at_time alice 3100, CSubmitContribution 1 12 5 6); callback7 oracle]) !! 12
     = Some {| sc_skillScore := 71; sc_contributionScore := 81;
               sc_totalScore := FHE_add 71 81; sc_exists := true |}.
Proof.
  pose proof (C10_contributions_unique_and_write_once (at_time deployer 1000)
                (setup ++ [request7; late_submission])) as (Hnd & _ & _ & Hkeep).
  split; [vm_compute; reflexivity|]. split; [exact Hnd|].
  apply Hkeep. vm_compute. reflexivity.
Defined.

(** ** The further properties on concrete transactions *)

(** X1, on the table of [drifted]. *)
Lemma X1_batch_ids_witness :
  batches (run genesis history) !! 1%nat = Some {| batch_id := 1; batch_open := true |}
  /\ batch_id {| batch_id := 1; batch_open := true |} = Z.of_nat 1.
Proof.
  assert (H : batches (run genesis history) !! 1%nat
              = Some {| batch_id := 1; batch_open := true |}) by (vm_compute; reflexivity).
  split; [exact H|].
  exact (proj1 (proj2 (X1_batch_ids_sequential (at_time deployer 1000) history)) _ _ H).
Defined.

(** X2, on batches 0 and 1 of [drifted]. *)
Lemma X2_snapshot_witness :
  0 <= 0 < batches_length (run genesis history)
  /\ 0 <= 1 < batches_length (run genesis history)
  /\ _hashCiphertexts (batchCiphertexts (run genesis history) 0)
     = _hashCiphertexts (batchCiphertexts (run genesis history) 1).
Proof.
  assert (H0 : 0 <= 0 < batches_length (run genesis history)) by by_evaluation.
  assert (H1 : 0 <= 1 < batches_length (run genesis history)) by by_evaluation.
  split; [exact H0|]. split; [exact H1|].
  exact (proj2 (X2_snapshot_is_constant (at_time deployer 1000) history 0) 0 1 H0 H1).
Defined.

(** X3, on the pending request 7 of [drifted]. *)
Lemma X3_stored_request_witness :
  decryptionContexts (run genesis history) !! 7
  = Some {| dc_batchId := 0;
            dc_stateHash := _hashCiphertexts [FHE_toBytes32 (FHE_asEuint32 1)];
            dc_processed := false |}
  /\ myCallback (run genesis history) (at_time oracle 3001) 7 cleartext42 bad_proof
     = Err DecryptionFailed.
Proof.
  assert (H : decryptionContexts (run genesis history) !! 7
              = Some {| dc_batchId := 0;
                        dc_stateHash := _hashCiphertexts [FHE_toBytes32 (FHE_asEuint32 1)];
                        dc_processed := false |}) by (vm_compute; reflexivity).
  split; [exact H|].
  exact (proj2 (proj2 (X3_stored_request_never_mismatches (at_time deployer 1000) history
                         7 _ (at_time oracle 3001) cleartext42 bad_proof H)
                  eq_refl eq_refl) eq_refl).
Defined.

Lemma sample_hashes_nonzero : snapshot_hashes_nonzero.
Proof. split; vm_compute; discriminate. Defined.

(** X4, on the completion logged by [history_replayed]. *)
Lemma X4_completion_witness :
  EvDecryptionCompleted 7 0 42 ∈ events (run genesis history_replayed)
  /\ EvDecryptionRequested 7 0 ∈ events (run genesis history_replayed).
Proof.
  assert (H : EvDecryptionCompleted 7 0 42 ∈ events (run genesis history_replayed)).
  { replace (events (run genesis history_replayed))
      with (EvDecryptionCompleted 7 0 42 :: events (run genesis history))
      by (vm_compute; reflexivity).
    apply list_elem_of_here. }
  split; [exact H|].
  exact (proj1 (X4_completion_answers_request (at_time deployer 1000) history_replayed
                  sample_hashes_nonzero) 7 0 42 H).
Defined.

(** X5, on [history_replayed], where the callback of request 7 comes twice. *)
Lemma X5_completed_once_witness :
  request_ids history_replayed = [7]
  /\ (completed_count 7 (events (run genesis history_replayed)) <= 1)%nat.
Proof.
  split; [vm_compute; reflexivity|].
  apply (X5_completed_at_most_once (at_time deployer 1000) history_replayed 7
           sample_hashes_nonzero).
  replace (request_ids history_replayed) with [7] by (vm_compute; reflexivity).
  apply NoDup_singleton.
Defined.

(** X6, on the pending request 7 of [drifted]. *)
Lemma X6_pending_closed_witness :
  batches_length (run genesis history) < 2 ^ 32
  /\ batch_open (batch_at (batches (run genesis history)) 0) = false.
Proof.
  assert (Hlen : batches_length (run genesis history) < 2 ^ 32) by (vm_compute; reflexivity).
  split; [exact Hlen|].
  refine (proj2 (X6_pending_request_names_closed_batch (at_time deployer 1000) history 7
                   {| dc_batchId := 0;
                      dc_stateHash := _hashCiphertexts [FHE_toBytes32 (FHE_asEuint32 1)];
                      dc_processed := false |} Hlen _ eq_refl _)).
  - vm_compute. reflexivity.
  - vm_compute. discriminate.
Defined.

(** X11, on mallory, who is neither owner nor provider. *)
Lemma X11_roles_witness :
  mallory <> owner drifted
  /\ provider_at drifted mallory = false
  /\ exec drifted (at_time mallory 4000) (CSetCooldownSeconds 1) = Err NotOwner
  /\ submitContribution drifted (at_time mallory 4000) 1 20 1 2 = Err NotProvider
  /\ step drifted (at_time mallory 4000, CCloseBatch 1) = drifted.
Proof.
  assert (Hne : sender (at_time mallory 4000) <> owner drifted) by (vm_compute; discriminate).
  assert (Hp : provider_at drifted (sender (at_time mallory 4000)) = false)
    by (vm_compute; reflexivity).
  pose proof (X11_roles_gate_every_call drifted (at_time mallory 4000)) as (Ho & Hs & Hst).
  split; [exact Hne|]. split; [exact Hp|].
  split; [exact (Ho Hne (CSetCooldownSeconds 1) eq_refl)|].
  split; [exact (Hs Hp 1 20 1 2)|].
  apply (Hst Hne Hp). discriminate.
Defined.

(** X12, on the late submission into [requested]. *)
Lemma X12_footprint_witness :
  writes_batches late_submission.2 = false
  /\ batches (step requested late_submission) = batches requested
  /\ decryptionContexts (step requested late_submission) = decryptionContexts requested.
Proof.
  pose proof (X12_call_footprint requested late_submission)
    as (_ & _ & _ & _ & Hba & _ & Hdc & _).
  split; [reflexivity|]. split; [exact (Hba eq_refl)|exact (Hdc eq_refl)].
Defined.

(** X17, on adding and removing alice. *)
Lemma X17_provider_witness :
  provider_at (step genesis (at_time deployer 1003, CAddProvider alice)) alice = true
  /\ provider_at
       (step drifted (at_time deployer 4000, CRemoveProvider alice)) alice = false
  /\ submitContribution (step drifted (at_time deployer 4000, CRemoveProvider alice))
       (at_time alice 5000) 1 20 1 2 = Err NotProvider.
Proof.
  assert (Ha : addProvider genesis (at_time deployer 1003) alice
               = Ok (step genesis (at_time deployer 1003, CAddProvider alice)))
    by (vm_compute; reflexivity).
  assert (Hr : removeProvider drifted (at_time deployer 4000) alice
               = Ok (step drifted (at_time deployer 4000, CRemoveProvider alice)))
    by (vm_compute; reflexivity).
  pose proof (proj1 (X17_provider_membership genesis (at_time deployer 1003) alice _) Ha)
    as (Hin & _).
  pose proof (proj2 (X17_provider_membership drifted (at_time deployer 4000) alice _) Hr)
    as (Hout & _ & Hsub).
  split; [exact Hin|]. split; [exact Hout|]. exact (Hsub (at_time alice 5000) 1 20 1 2 eq_refl).
Defined.

(** X18, on pausing [requested] (the state [halted]) and lifting the pause. *)
Lemma X18_pause_witness :
  pause requested (at_time deployer 2200) = Ok halted
  /\ paused halted = true
  /\ exists s2, unpause halted (at_time deployer 2300) = Ok s2
       /\ paused s2 = false /\ batches s2 = batches requested.
Proof.
  assert (H : pause requested (at_time deployer 2200) = Ok halted) by (vm_compute; reflexivity).
  pose proof (X18_pause_unpause_round_trip requested (at_time deployer 2200) halted H)
    as (Hp & Hun).
  split; [exact H|]. split; [exact Hp|].
  destruct (Hun (at_time deployer 2300) ltac:(vm_compute; reflexivity))
    as (s2 & Hs2 & Hp2 & _ & Hb & _).
  exists s2. auto.
Defined.

(** X19, on the owner setting the cooldown of [drifted] to 10. *)
Lemma X19_setCooldown_witness :
  sender (at_time deployer 4000) = owner drifted
  /\ setCooldownSeconds drifted (at_time deployer 4000) 0 = Err InvalidArgument
  /\ exists s1, setCooldownSeconds drifted (at_time deployer 4000) 10 = Ok s1
       /\ cooldownSeconds s1 = 10
       /\ submitContribution s1 (at_time alice 3009) 1 20 1 2 = Err CooldownActive.
Proof.
  assert (Hown : sender (at_time deployer 4000) = owner drifted) by (vm_compute; reflexivity).
  pose proof (X19_setCooldown_takes_effect drifted (at_time deployer 4000) 0 Hown) as [H0 _].
  pose proof (X19_setCooldown_takes_effect drifted (at_time deployer 4000) 10 Hown) as [_ H10].
  split; [exact Hown|]. split; [exact (H0 eq_refl)|].
  destruct (H10 ltac:(discriminate)) as (s1 & Hs1 & Hcd & _ & Hguard).
  exists s1. split; [exact Hs1|]. split; [exact Hcd|].
  apply (Hguard (at_time alice 3009) 1 20 1 2); by_evaluation.
Defined.

(** X20, on a third batch opened in [drifted]. *)
Lemma X20_openBatch_witness :
  batches_length drifted = 2
  /\ exists s1, openBatch drifted (at_time deployer 4000) = Ok s1
       /\ batch_at (batches s1) 2 = {| batch_id := 2; batch_open := true |}.
Proof.
  assert (Hlen : batches_length drifted = 2) by (vm_compute; reflexivity).
  split; [exact Hlen|].
  destruct (X20_openBatch_allocates_next_id drifted (at_time deployer 4000))
    as (s1 & Hs1 & _ & _ & Hat & _); [by_evaluation..|].
  exists s1. split; [exact Hs1|]. rewrite Hlen in Hat. exact Hat.
Defined.

(** X21, on closing batch 1 of [drifted]. *)
Lemma X21_closeBatch_witness :
  exists s1, closeBatch drifted (at_time deployer 4000) 1 = Ok s1
    /\ batch_at (batches s1) 1 = {| batch_id := 1; batch_open := false |}
    /\ batch_at (batches s1) 0 = batch_at (batches drifted) 0
    /\ closeBatch s1 (at_time deployer 4100) 1 = Err BatchClosed.
Proof.
  exists (step drifted (at_time deployer 4000, CCloseBatch 1)).
  assert (H : closeBatch drifted (at_time deployer 4000) 1
              = Ok (step drifted (at_time deployer 4000, CCloseBatch 1)))
    by (vm_compute; reflexivity).
  pose proof (X21_closeBatch_touches_one_batch drifted (at_time deployer 4000) 1 _ H
                ltac:(lia)) as (Hat & Hother & _ & Hagain).
  split; [exact H|]. split; [exact Hat|]. split.
  - apply Hother; lia.
  - apply Hagain. vm_compute. reflexivity.
Defined.

(** X22, on alice's submission at time 3000, mallory's delivery of the
    callback of request 7 in between, and alice's next submissions. *)
Lemma X22_second_submission_witness :
  submitContribution requested (at_time alice 3000) 1 12 71 81 = Ok drifted
  /\ dc_processed (context_at (run drifted [callback7 mallory]) 7) = true
  /\ submitContribution (run drifted [callback7 mallory]) (at_time alice 3059) 1 20 1 2
     = Err CooldownActive
  /\ submitContribution (run drifted [callback7 mallory]) (at_time alice 3060) 1 20 1 2
     <> Err CooldownActive.
Proof.
  assert (H : submitContribution requested (at_time alice 3000) 1 12 71 81 = Ok drifted)
    by (vm_compute; reflexivity).
  assert (Hall : Forall (fun tx => sender tx.1 <> owner requested
                                   /\ sender tx.1 <> sender (at_time alice 3000))
                   [callback7 mallory]).
  { constructor; [|constructor]. split; vm_compute; discriminate. }
  pose proof (X22_second_submission_waits requested (at_time alice 3000) 1 12 71 81 drifted
                [callback7 mallory] H ltac:(vm_compute; reflexivity) Hall) as Hnext.
  split; [exact H|]. split; [vm_compute; reflexivity|]. split.
  - apply (Hnext (at_time alice 3059) 1 20 1 2 eq_refl). vm_compute. reflexivity.
  - apply (Hnext (at_time alice 3060) 1 20 1 2 eq_refl). vm_compute. discriminate.
Defined.

(** X23, on a provider that has not submitted yet. *)
Lemma X23_first_submission_witness :
  lastSubmissionTime (step genesis (at_time deployer 1003, CAddProvider alice)) !! alice = None
  /\ submitContribution (step genesis (at_time deployer 1003, CAddProvider alice))
       (at_time alice 59) 0 11 70 80 = Err CooldownActive.
Proof.
  assert (Hnone : lastSubmissionTime (step genesis (at_time deployer 1003, CAddProvider alice))
                    !! sender (at_time alice 59) = None) by (vm_compute; reflexivity).
  split; [exact Hnone|].
  apply (X23_first_submission_guard _ (at_time alice 59) 0 11 70 80 Hnone); by_evaluation.
Defined.

(** X24, on batch 0, closed by the last transaction of [setup]. *)
Lemma X24_closed_batch_witness :
  closeBatch (run genesis (take 4 setup)) (at_time deployer 2001) 0 = Ok closed
  /\ submitContribution (run closed [request7; late_submission])
       (at_time alice 3100) 0 30 1 2 = Err BatchClosed.
Proof.
  assert (H : closeBatch (run genesis (take 4 setup)) (at_time deployer 2001) 0 = Ok closed)
    by (vm_compute; reflexivity).
  split; [exact H|].
  apply (X24_closed_batch_takes_no_submission _ _ 0 closed [request7; late_submission] H);
    by_evaluation.
Defined.

(** X25, on request 7 and its callback right after. *)
Lemma X25_handshake_witness :
  requestBatchScoreDecryption closed (at_time deployer 2102) 0 7 = Ok requested
  /\ exists s2, myCallback requested (at_time oracle 2500) 7 cleartext42 good_proof = Ok s2
       /\ dc_processed (context_at s2 7) = true.
Proof.
  assert (H : requestBatchScoreDecryption closed (at_time deployer 2102) 0 7 = Ok requested)
    by (vm_compute; reflexivity).
  split; [exact H|].
  destruct (X25_request_then_callback closed (at_time deployer 2102) 0 7 requested
              (at_time oracle 2500) cleartext42 good_proof H eq_refl eq_refl)
    as (s2 & Hs2 & Hctx & _).
  exists s2. split; [exact Hs2|]. rewrite Hctx. reflexivity.
Defined.

(** X26, on alice's late submission, named under batch 1 or under a batch
    opened next to it. *)
Lemma X26_no_batch_witness :
  contributions
    (step (step requested (at_time deployer 2900, COpenBatch))
       (at_time alice 3000, CSubmitContribution 1 12 71 81))
  = contributions
      (step (step requested (at_time deployer 2900, COpenBatch))
         (at_time alice 3000, CSubmitContribution 2 12 71 81)).
Proof.
  refine (proj1 (X26_record_carries_no_batch
                   (step requested (at_time deployer 2900, COpenBatch))
                   (at_time alice 3000) 1 2 12 71 81 _ _ _ _));
    vm_compute; reflexivity.
Defined.

(** X27, on the cleartext of the word 42. *)
Lemma X27_abi_decode_witness :
  length cleartext42 = 32%nat
  /\ abi_decode_uint256 cleartext42 = 42
  /\ 0 <= abi_decode_uint256 cleartext42 < UINT256_MODULUS.
Proof.
  split; [reflexivity|]. split; [reflexivity|].
  exact (proj1 (X27_abi_decode_uint256_word cleartext42 cleartext42 eq_refl eq_refl)).
Defined.
